(** * Channel session service: passphrase resolution and cloud recording

    A shallow embedding of the GraphQL resolvers of [graph/schema.resolvers.go]
    ([CreateChannel], [StartRecordingSession], [StopRecordingSession],
    [JoinChannel], [Share]) and of the recording client of package [utils]
    ([Recorder.Acquire], [Recorder.Start], [Stop], [FirstN]).

    Go strings are byte sequences: they are modelled by [string] (a list of
    8-bit [ascii]).  Integers are [Z] with the conversions written out.  The
    resolvers run in a small state-and-error monad over a [World] that holds
    the [channels] table, the log and the outbound HTTP requests. *)

From Stdlib Require Import String Ascii List ZArith NArith Bool Lia.
From stdpp Require Import base gmap strings.
Import ListNotations.

Local Open Scope string_scope.

(** ** Strings as Go sees them *)

Module GoString.

Definition byte_val (c : ascii) : N := N_of_ascii c.

(** The bytes [0-9A-Za-z]. *)
Definition is_alnum_byte (c : ascii) : bool :=
  let b := byte_val c in
  ((48 <=? b) && (b <=? 57) || (65 <=? b) && (b <=? 90) || (97 <=? b) && (b <=? 122))%N.

(** A rune is a Unicode code point; [RuneError] is U+FFFD. *)
Definition RuneError : N := 65533%N.

Definition is_cont (c : ascii) : bool :=
  ((128 <=? byte_val c) && (byte_val c <=? 191))%N.

Definition in_range (lo hi : N) (c : ascii) : bool :=
  ((lo <=? byte_val c) && (byte_val c <=? hi))%N.

Definition low6 (c : ascii) : N := N.land (byte_val c) 63.

(** [utf8.DecodeRuneInString]: the first rune of [s] and its width in
    bytes.  An invalid or truncated encoding decodes to [RuneError] with
    width 1; the empty string to [RuneError] with width 0. *)
Definition DecodeRuneInString (s : string) : N * nat :=
  match s with
  | EmptyString => (RuneError, 0%nat)
  | String c0 s1 =>
    let b0 := byte_val c0 in
    if (b0 <? 128)%N then (b0, 1%nat)
    else if in_range 194 223 c0 then
      match s1 with
      | String c1 _ =>
        if is_cont c1 then ((N.land b0 31 * 64 + low6 c1)%N, 2%nat)
        else (RuneError, 1%nat)
      | _ => (RuneError, 1%nat)
      end
    else if in_range 224 239 c0 then
      let lo := if (b0 =? 224)%N then 160%N else 128%N in
      let hi := if (b0 =? 237)%N then 159%N else 191%N in
      match s1 with
      | String c1 (String c2 _) =>
        if in_range lo hi c1 && is_cont c2
        then ((N.land b0 15 * 4096 + low6 c1 * 64 + low6 c2)%N, 3%nat)
        else (RuneError, 1%nat)
      | _ => (RuneError, 1%nat)
      end
    else if in_range 240 244 c0 then
      let lo := if (b0 =? 240)%N then 144%N else 128%N in
      let hi := if (b0 =? 244)%N then 143%N else 191%N in
      match s1 with
      | String c1 (String c2 (String c3 _)) =>
        if in_range lo hi c1 && is_cont c2 && is_cont c3
        then ((N.land b0 7 * 262144 + low6 c1 * 4096 + low6 c2 * 64 + low6 c3)%N, 4%nat)
        else (RuneError, 1%nat)
      | _ => (RuneError, 1%nat)
      end
    else (RuneError, 1%nat)
  end.

(** The character class [a-zA-Z0-9] on runes. *)
Definition is_alnum_rune (r : N) : bool :=
  ((48 <=? r) && (r <=? 57) || (65 <=? r) && (r <=? 90) || (97 <=? r) && (r <=? 122))%N.

(** [s[:j]] for [j] within the string. *)
Fixpoint slice_to (j : nat) (s : string) : string :=
  match j, s with
  | S j', String c s' => String c (slice_to j' s')
  | _, _ => EmptyString
  end.

(** Keeping the bytes that satisfy a predicate. *)
Fixpoint filter_bytes (p : ascii -> bool) (s : string) : string :=
  match s with
  | EmptyString => EmptyString
  | String c s' => if p c then String c (filter_bytes p s') else filter_bytes p s'
  end.

(** The bytes of [s] all satisfy [p]. *)
Fixpoint all_bytes (p : ascii -> bool) (s : string) : bool :=
  match s with
  | EmptyString => true
  | String c s' => p c && all_bytes p s'
  end.

(** The first [k] bytes of [s] (as far as they exist) all fail [p]. *)
Fixpoint prefix_none (p : ascii -> bool) (k : nat) (s : string) : Prop :=
  match k, s with
  | S k', String c s' => p c = false /\ prefix_none p k' s'
  | _, _ => True
  end.

End GoString.

Import GoString.

(** ** Package utils: FirstN *)

(** The loop of [FirstN]: [for j := range s] visits the byte offset [j] of
    every rune of [s].  [skip] counts the bytes of the current rune still to
    be passed over, [i] is the loop counter; the result is the offset at
    which the loop returns, or [None] when it runs to the end. *)
Fixpoint FirstN_range (s : string) (skip i j n : nat) : option nat :=
  match s with
  | EmptyString => None
  | String c s' =>
    match skip with
    | S k => FirstN_range s' k i (S j) n
    | O =>
      if Nat.eqb i n then Some j
      else FirstN_range s' (snd (DecodeRuneInString s) - 1) (S i) (S j) n
    end
  end.

Definition FirstN (s : string) (n : nat) : string :=
  match FirstN_range s 0 0 0 n with
  | Some j => slice_to j s
  | None => s
  end.

(** ** regexp: ReplaceAllString for the pattern of the resolver *)

(** [regexp.MustCompile("[^a-zA-Z0-9]+").ReplaceAllString(s, "")]: every
    maximal run of runes outside the class is replaced by the empty string,
    so exactly the runes of the class remain.  [skip] counts the bytes of a
    deleted rune still to be passed over. *)
Fixpoint ReplaceAllString_loop (s : string) (skip : nat) : string :=
  match s with
  | EmptyString => EmptyString
  | String c s' =>
    match skip with
    | S k => ReplaceAllString_loop s' k
    | O =>
      let (r, size) := DecodeRuneInString s in
      if is_alnum_rune r then String c (ReplaceAllString_loop s' 0)
      else ReplaceAllString_loop s' (size - 1)
    end
  end.

Definition ReplaceAllString_nonalnum (s : string) : string :=
  ReplaceAllString_loop s 0.

(** The title passed to [Recorder.Start] (schema.resolvers.go, lines 185-190):
    [utils.FirstN(reg.ReplaceAllString(title, ""), 100)].  The pattern is a
    constant that compiles, so the error branch of [regexp.Compile] is
    never taken. *)
Definition finalTitle (title : string) : string :=
  FirstN (ReplaceAllString_nonalnum title) 100.

(** [strings.ReplaceAll(s, "-", "")]: every occurrence of the one-byte
    string is removed. *)
Definition ReplaceAll_dash (s : string) : string :=
  filter_bytes (fun c => negb (Ascii.eqb c "-"%char)) s.

(** ** Integer and string conversions *)

(** [int32(x)]: the low 32 bits, read as a signed number. *)
Definition int32 (x : Z) : Z := ((x + 2 ^ 31) mod 2 ^ 32 - 2 ^ 31)%Z.

Definition byte_of_Z (z : Z) : ascii := ascii_of_N (Z.to_N z).

(** [string(x)] on an integer [x]: Go converts the number to the UTF-8
    encoding of the code point [x], not to its decimal text; a number that
    is no valid code point gives the encoding of U+FFFD. *)
Definition string_of_rune (r : Z) : string :=
  let bad := String (byte_of_Z 239) (String (byte_of_Z 191) (String (byte_of_Z 189) EmptyString)) in
  let cont (x : Z) := byte_of_Z (Z.lor 128 (Z.land x 63)) in
  if (r <? 0)%Z || (1114111 <? r)%Z || ((55296 <=? r)%Z && (r <=? 57343)%Z) then bad
  else if (r <? 128)%Z then String (byte_of_Z r) EmptyString
  else if (r <? 2048)%Z then
    String (byte_of_Z (Z.lor 192 (Z.shiftr r 6))) (String (cont r) EmptyString)
  else if (r <? 65536)%Z then
    String (byte_of_Z (Z.lor 224 (Z.shiftr r 12)))
      (String (cont (Z.shiftr r 6)) (String (cont r) EmptyString))
  else
    String (byte_of_Z (Z.lor 240 (Z.shiftr r 18)))
      (String (cont (Z.shiftr r 12)) (String (cont (Z.shiftr r 6)) (String (cont r) EmptyString))).

(** ** Errors and nullable columns *)

(** [errors.New(msg)]: a caller of the service sees the message only. *)
Inductive error : Type := errorsNew (msg : string).

Definition errInternalServer : error := errorsNew "Internal Server Error".
Definition errBadRequest : error := errorsNew "Bad Request".

Module sql.

(** [sql.NullString] and [sql.NullInt32]. *)
Record NullString : Type := { NullString_String : string; NullString_Valid : bool }.
Record NullInt32 : Type := { NullInt32_Int32 : Z; NullInt32_Valid : bool }.

Definition NullString_zero : NullString := {| NullString_String := ""; NullString_Valid := false |}.
Definition NullInt32_zero : NullInt32 := {| NullInt32_Int32 := 0; NullInt32_Valid := false |}.

End sql.

(** ** Package models *)

Module models.

(** Modelled from the spec: the declaration of [models.Channel] that the
    resolvers use (package [pkg/video_conferencing/models]) is not among the
    sources.  Its fields are the ones the resolvers read and write: the
    attributes of a Channel in section 3 of the specification (identifier,
    title, channel name, channel secret, the two passphrases, DTMF code and
    the recording triple), each bound to the column of the same name in the
    SQL statements. *)
Record Channel : Type := {
  ID : Z;
  Title : string;
  ChannelName : string;
  ChannelSecret : string;
  HostPassphrase : string;
  ViewerPassphrase : string;
  DTMF : string;
  RecordingUID : sql.NullInt32;
  RecordingRID : sql.NullString;
  RecordingSID : sql.NullString
}.

(** [var channelData models.Channel]: the zero value. *)
Definition Channel_zero : Channel :=
  {| ID := 0; Title := ""; ChannelName := ""; ChannelSecret := "";
     HostPassphrase := ""; ViewerPassphrase := ""; DTMF := "";
     RecordingUID := sql.NullInt32_zero;
     RecordingRID := sql.NullString_zero;
     RecordingSID := sql.NullString_zero |}.

(** Modelled from the spec: [models.User] as [StartRecordingSession] reads
    it, the authenticated caller's display name. *)
Record User : Type := { Name : string }.

End models.

(** ** Package model: the GraphQL types *)

Module model.

Record Pstn : Type := { Number : string; Dtmf : string }.

(** [Host] is a [*string]: [None] is [nil]. *)
Record Passphrase : Type := { Host : option string; View : string }.

Record UserCredentials : Type := { UID : Z; Rtc : string }.

Record ShareResponse : Type := {
  ShareResponse_Passphrase : Passphrase;
  ShareResponse_Channel : string;
  ShareResponse_Title : string;
  ShareResponse_Pstn : option Pstn
}.

Record Session : Type := {
  Session_Title : string;
  Session_Channel : string;
  Session_IsHost : bool;
  Session_MainUser : UserCredentials;
  Session_ScreenShare : UserCredentials;
  Session_Secret : string
}.

End model.

(** ** Package utils: the recording client's data *)

Module utils.

(** [Recorder]; the embedded [http.Client] carries no data of its own. *)
Record Recorder : Type := {
  Channel : string;
  Token : string;
  UID : Z;
  RID : string;
  SID : string
}.

Record AcquireClientRequest : Type := { ResourceExpiredHour : Z }.

Record AcquireRequest : Type := {
  AcquireRequest_Cname : string;
  AcquireRequest_UID : string;
  AcquireRequest_ClientRequest : AcquireClientRequest
}.

Record TranscodingConfig : Type := {
  Height : Z;
  Width : Z;
  Bitrate : Z;
  Fps : Z;
  MixedVideoLayout : Z;
  BackgroundColor : string
}.

Record RecordingConfig : Type := {
  MaxIdleTime : Z;
  StreamTypes : Z;
  ChannelType : Z;
  DecryptionMode : Z;
  Secret : string;
  RecordingConfig_TranscodingConfig : TranscodingConfig
}.

Record StorageConfig : Type := {
  Vendor : Z;
  Region : Z;
  Bucket : string;
  AccessKey : string;
  SecretKey : string;
  FileNamePrefix : list string
}.

Record ClientRequest : Type := {
  ClientRequest_Token : string;
  ClientRequest_RecordingConfig : RecordingConfig;
  ClientRequest_StorageConfig : StorageConfig
}.

Record StartRecordRequest : Type := {
  StartRecordRequest_Cname : string;
  StartRecordRequest_UID : string;
  StartRecordRequest_ClientRequest : ClientRequest
}.

End utils.

(** ** The outside world *)

(** What [json.Marshal] is given; the field names of the JSON text are fixed
    by the struct tags and carry no further information. *)
Inductive RequestBody : Type :=
| AcquireBody (b : utils.AcquireRequest)
| StartBody (b : utils.StartRecordRequest).

(** An [http.Request] as the client builds it. *)
Record Request : Type := {
  Method : string;
  URL : string;
  ContentType : string;
  BasicAuth : string * string;
  Body : RequestBody
}.

(** An [http.Response].  [Decoded] is what
    [json.NewDecoder(resp.Body).Decode(&result)] leaves in the
    [map[string]string]: the string members of the JSON object, and the
    empty map for a body that is no such object (the decoder's error is
    dropped by the client). *)
Record Response : Type := {
  StatusCode : Z;
  Decoded : gmap string string
}.

(** [result[key]] on a Go map: the zero value for an absent key. *)
Definition map_index (m : gmap string string) (key : string) : string :=
  default "" (m !! key).

(** zerolog levels. *)
Inductive Level : Type := InfoLevel | DebugLevel | ErrorLevel.

(** The columns of table [channels]. *)
Module col.

Inductive Column : Type :=
| id | title | channel_name | channel_secret | host_passphrase
| viewer_passphrase | dtmf | recording_uid | recording_sid | recording_rid.

Definition index (c : col.Column) : nat :=
  match c with
  | id => 0 | title => 1 | channel_name => 2 | channel_secret => 3
  | host_passphrase => 4 | viewer_passphrase => 5 | dtmf => 6
  | recording_uid => 7 | recording_sid => 8 | recording_rid => 9
  end.

End col.

Definition selects (cols : list col.Column) (c : col.Column) : bool :=
  existsb (fun c' => Nat.eqb (col.index c') (col.index c)) cols.

(** The right-hand side of a comparison in a WHERE clause: the bind
    parameter [$1], or a quoted SQL string literal. *)
Inductive Operand : Type :=
| Bind1
| Quoted (lit : string).

(** [SELECT cols FROM channels WHERE host_passphrase = h OR viewer_passphrase = v]. *)
Record SelectQuery : Type := {
  sel_columns : list col.Column;
  sel_host : Operand;
  sel_viewer : Operand
}.

Definition is_bind (o : Operand) : bool :=
  match o with Bind1 => true | Quoted _ => false end.

(** The number of bind parameters the statement declares. *)
Definition placeholders (q : SelectQuery) : nat :=
  if is_bind (sel_host q) || is_bind (sel_viewer q) then 1 else 0.

Definition operand_value (o : Operand) (arg : string) : string :=
  match o with Bind1 => arg | Quoted lit => lit end.

(** The statements sent to the store. *)
Inductive DBCall : Type :=
| CallGet (q : SelectQuery) (arg : string)
| CallInsert (c : models.Channel)
| CallUpdate (c : models.Channel).

(** The request context: the caller that the authentication middleware
    found, if any ([middleware.GetUserFromContext]). *)
Record Context : Type := { ctx_user : option models.User }.

(** Everything the resolvers obtain from outside the process.  The
    generators, the HTTP transport and the store's failures are indexed by
    a logical clock that advances at each such interaction, so that a run is
    a function of the environment. *)
Record Env : Type := {
  (* configuration (viper) *)
  ENABLE_OAUTH : bool;
  PSTN_NUMBER : string;
  APP_ID : string;
  CUSTOMER_ID : string;
  CUSTOMER_CERTIFICATE : string;
  RECORDING_VENDOR : Z;
  RECORDING_REGION : Z;
  BUCKET_NAME : string;
  BUCKET_ACCESS_KEY : string;
  BUCKET_ACCESS_SECRET : string;
  (* utils.GenerateUUID, utils.GenerateDTMF, utils.GenerateUserCredentials *)
  uuid_at : nat -> error + string;
  dtmf_at : nat -> error + string;
  creds_at : nat -> string -> bool -> error + model.UserCredentials;
  (* net/http: NewRequest rejects a URL it cannot parse; Do is a round trip *)
  NewRequest_err : string -> option error;
  http_Do : nat -> Request -> error + Response;
  (* the store: a failing statement, the comparison used by WHERE on the
     passphrase columns (it depends on the column type and collation), and
     whether a statement is rejected when the number of bound arguments
     differs from the number of its placeholders *)
  db_err : nat -> option error;
  sql_eq : string -> string -> bool;
  strict_args : bool;
  (* package time *)
  LoadLocation_err : option error;
  currentDate : string;
  currentTime : string
}.

(** The state a request runs in. *)
Record World : Type := {
  channels : list models.Channel;
  clock : nat;
  log : list (Level * string);
  db_calls : list DBCall;
  requests : list Request
}.

(** What a Go function call ends in: its results with a nil error, a
    non-nil error, or a run-time panic. *)
Inductive Result (A : Type) : Type :=
| Return (a : A)
| Error (e : error)
| Panic (msg : string).

Arguments Return {A} a.
Arguments Error {A} e.
Arguments Panic {A} msg.

Definition M (A : Type) : Type := World -> Result A * World.

Definition ret {A} (a : A) : M A := fun w => (Return a, w).

Definition bind {A B} (m : M A) (f : A -> M B) : M B :=
  fun w =>
    match m w with
    | (Return a, w') => f a w'
    | (Error e, w') => (Error e, w')
    | (Panic msg, w') => (Panic msg, w')
    end.

Definition fail {A} (e : error) : M A := fun w => (Error e, w).

Definition panic {A} (msg : string) : M A := fun w => (Panic msg, w).

Declare Scope go_scope.
Delimit Scope go_scope with go.
Notation "x <- m ;; k" := (bind m (fun x => k))
  (at level 100, m at next level, right associativity) : go_scope.
Notation "m ;;; k" := (bind m (fun _ => k))
  (at level 100, right associativity) : go_scope.
Local Open Scope go_scope.

Definition tick : M nat :=
  fun w => (Return (clock w),
            {| channels := channels w; clock := S (clock w); log := log w;
               db_calls := db_calls w; requests := requests w |}).

Definition logf (l : Level) (msg : string) : M unit :=
  fun w => (Return tt,
            {| channels := channels w; clock := clock w; log := log w ++ [(l, msg)];
               db_calls := db_calls w; requests := requests w |}).

Definition record_call (c : DBCall) : M unit :=
  fun w => (Return tt,
            {| channels := channels w; clock := clock w; log := log w;
               db_calls := db_calls w ++ [c]; requests := requests w |}).

Definition record_request (r : Request) : M unit :=
  fun w => (Return tt,
            {| channels := channels w; clock := clock w; log := log w;
               db_calls := db_calls w; requests := requests w ++ [r] |}).

Definition get_channels : M (list models.Channel) :=
  fun w => (Return (channels w), w).

Definition put_channels (rows : list models.Channel) : M unit :=
  fun w => (Return tt,
            {| channels := rows; clock := clock w; log := log w;
               db_calls := db_calls w; requests := requests w |}).

(** ** The collaborators, run against an environment *)

Section Service.

Variable env : Env.

(** [middleware.GetUserFromContext]. *)
Definition GetUserFromContext (ctx : Context) : option models.User := ctx_user ctx.

(** Modelled from the spec: [utils.GenerateUUID] is not among the sources.
    It is the specification's [GenerateOpaqueID() -> string]: it fails, or
    yields the next opaque identifier of the environment. *)
Definition GenerateUUID : M (error + string) :=
  t <- tick ;; ret (uuid_at env t).

(** Modelled from the spec: [utils.GenerateDTMF] is not among the sources;
    it fails, or yields a dial-in code. *)
Definition GenerateDTMF : M (error + string) :=
  t <- tick ;; ret (dtmf_at env t).

(** Modelled from the spec: [utils.GenerateUserCredentials] is not among the
    sources.  It is the specification's
    [Generate(channelName, isPrimaryStream) -> JoinCredential]: it fails, or
    yields a numeric participant id and a signed token. *)
Definition GenerateUserCredentials (channel : string) (isMain : bool)
  : M (error + model.UserCredentials) :=
  t <- tick ;; ret (creds_at env t channel isMain).

(** [client.Do(req)]: one round trip. *)
Definition Do (req : Request) : M (error + Response) :=
  record_request req ;;; t <- tick ;; ret (http_Do env t req).

(** *** The store *)

(** sqlx's [StructScan]: the fields bound to the selected columns are
    copied from the row; every other field of the destination keeps the
    value it had, here the zero value of a fresh [models.Channel]. *)
Definition StructScan (cols : list col.Column) (row : models.Channel) : models.Channel :=
  let z := models.Channel_zero in
  {| models.ID := if selects cols col.id then models.ID row else models.ID z;
     models.Title := if selects cols col.title then models.Title row else models.Title z;
     models.ChannelName :=
       if selects cols col.channel_name then models.ChannelName row else models.ChannelName z;
     models.ChannelSecret :=
       if selects cols col.channel_secret then models.ChannelSecret row else models.ChannelSecret z;
     models.HostPassphrase :=
       if selects cols col.host_passphrase then models.HostPassphrase row
       else models.HostPassphrase z;
     models.ViewerPassphrase :=
       if selects cols col.viewer_passphrase then models.ViewerPassphrase row
       else models.ViewerPassphrase z;
     models.DTMF := if selects cols col.dtmf then models.DTMF row else models.DTMF z;
     models.RecordingUID :=
       if selects cols col.recording_uid then models.RecordingUID row else models.RecordingUID z;
     models.RecordingRID :=
       if selects cols col.recording_rid then models.RecordingRID row else models.RecordingRID z;
     models.RecordingSID :=
       if selects cols col.recording_sid then models.RecordingSID row else models.RecordingSID z |}.

Definition where_matches (q : SelectQuery) (arg : string) (row : models.Channel) : bool :=
  sql_eq env (models.HostPassphrase row) (operand_value (sel_host q) arg)
  || sql_eq env (models.ViewerPassphrase row) (operand_value (sel_viewer q) arg).

(** The row that [DB.Get(&channelData, q, arg)] scans into [channelData] at
    time [t], or [None] when it returns an error: the statement fails, its
    one bound argument is refused, or no row matches ([sql.ErrNoRows]). *)
Definition db_lookup (rows : list models.Channel) (t : nat) (q : SelectQuery) (arg : string)
  : option models.Channel :=
  match db_err env t with
  | Some _ => None
  | None =>
    if strict_args env && negb (Nat.eqb (placeholders q) 1) then None
    else option_map (StructScan (sel_columns q)) (find (where_matches q arg) rows)
  end.

Definition DB_Get (q : SelectQuery) (arg : string) : M (option models.Channel) :=
  record_call (CallGet q arg) ;;;
  t <- tick ;;
  rows <- get_channels ;;
  ret (db_lookup rows t q arg).

Definition next_id (rows : list models.Channel) : Z :=
  (1 + fold_right Z.max 0 (map models.ID rows))%Z.

(** The row that
    [INSERT INTO channels (title, channel_name, channel_secret,
     host_passphrase, viewer_passphrase, dtmf) VALUES (...)]
    adds: the six named columns from the struct, a fresh [id], and NULL in
    the recording columns. *)
Definition inserted_row (rows : list models.Channel) (c : models.Channel) : models.Channel :=
  {| models.ID := next_id rows;
     models.Title := models.Title c;
     models.ChannelName := models.ChannelName c;
     models.ChannelSecret := models.ChannelSecret c;
     models.HostPassphrase := models.HostPassphrase c;
     models.ViewerPassphrase := models.ViewerPassphrase c;
     models.DTMF := models.DTMF c;
     models.RecordingUID := sql.NullInt32_zero;
     models.RecordingRID := sql.NullString_zero;
     models.RecordingSID := sql.NullString_zero |}.

Definition DB_Insert (c : models.Channel) : M (option error) :=
  record_call (CallInsert c) ;;;
  t <- tick ;;
  match db_err env t with
  | Some e => ret (Some e)
  | None =>
    rows <- get_channels ;;
    put_channels (rows ++ [inserted_row rows c]) ;;;
    ret None
  end.

(** [UPDATE channels SET (recording_uid, recording_sid, recording_rid) =
     (:recording_uid, :recording_sid, :recording_rid) WHERE id = :id]
    on one row. *)
Definition set_recording (rd row : models.Channel) : models.Channel :=
  if Z.eqb (models.ID row) (models.ID rd) then
    {| models.ID := models.ID row;
       models.Title := models.Title row;
       models.ChannelName := models.ChannelName row;
       models.ChannelSecret := models.ChannelSecret row;
       models.HostPassphrase := models.HostPassphrase row;
       models.ViewerPassphrase := models.ViewerPassphrase row;
       models.DTMF := models.DTMF row;
       models.RecordingUID := models.RecordingUID rd;
       models.RecordingRID := models.RecordingRID rd;
       models.RecordingSID := models.RecordingSID rd |}
  else row.

Definition DB_UpdateRecording (rd : models.Channel) : M (option error) :=
  record_call (CallUpdate rd) ;;;
  t <- tick ;;
  match db_err env t with
  | Some e => ret (Some e)
  | None =>
    rows <- get_channels ;;
    put_channels (map (set_recording rd) rows) ;;;
    ret None
  end.

(** *** Package utils: the recording client *)

Definition api : string := "https://api.agora.io/v1/apps/".

Definition post (url : string) (body : RequestBody) : Request :=
  {| Method := "POST"; URL := url; ContentType := "application/json";
     BasicAuth := (CUSTOMER_ID env, CUSTOMER_CERTIFICATE env); Body := body |}.

(** [(rec *Recorder) Acquire() error].  The receiver is updated in place:
    the result carries the recorder as the call leaves it. *)
Definition Acquire (rec : utils.Recorder) : M (option error * utils.Recorder) :=
  creds <- GenerateUserCredentials (utils.Channel rec) false ;;
  match creds with
  | inl err => ret (Some err, rec)
  | inr creds =>
    let rec1 :=
      {| utils.Channel := utils.Channel rec; utils.Token := model.Rtc creds;
         utils.UID := int32 (model.UID creds);
         utils.RID := utils.RID rec; utils.SID := utils.SID rec |} in
    let requestBody :=
      AcquireBody
        {| utils.AcquireRequest_Cname := utils.Channel rec1;
           utils.AcquireRequest_UID := string_of_rune (utils.UID rec1);
           utils.AcquireRequest_ClientRequest := {| utils.ResourceExpiredHour := 24 |} |} in
    let url := api +:+ APP_ID env +:+ "/cloud_recording/acquire" in
    match NewRequest_err env url with
    | Some err => ret (Some err, rec1)
    | None =>
      resp <- Do (post url requestBody) ;;
      match resp with
      | inl err => ret (Some err, rec1)
      | inr resp =>
        ret (None,
             {| utils.Channel := utils.Channel rec1; utils.Token := utils.Token rec1;
                utils.UID := utils.UID rec1;
                utils.RID := map_index (Decoded resp) "resourceId";
                utils.SID := utils.SID rec1 |})
      end
    end
  end.

(** [(rec *Recorder) Start(channelTitle string, secret *string) error].
    [json.Marshal] cannot fail on a struct of strings and numbers, so its
    error branch is left out. *)
Definition Start (rec : utils.Recorder) (channelTitle : string) (secret : option string)
  : M (option error * utils.Recorder) :=
  match LoadLocation_err env with
  | Some err => ret (Some err, rec)
  | None =>
    let transcodingConfig :=
      {| utils.Height := 720; utils.Width := 1280; utils.Bitrate := 2260;
         utils.Fps := 15; utils.MixedVideoLayout := 1;
         utils.BackgroundColor := "#000000" |} in
    let recordingConfig :=
      match secret with
      | Some s =>
        if negb (String.eqb s "") then
          {| utils.MaxIdleTime := 30; utils.StreamTypes := 2; utils.ChannelType := 1;
             utils.DecryptionMode := 1; utils.Secret := s;
             utils.RecordingConfig_TranscodingConfig := transcodingConfig |}
        else
          {| utils.MaxIdleTime := 30; utils.StreamTypes := 2; utils.ChannelType := 1;
             utils.DecryptionMode := 0; utils.Secret := "";
             utils.RecordingConfig_TranscodingConfig := transcodingConfig |}
      | None =>
        {| utils.MaxIdleTime := 30; utils.StreamTypes := 2; utils.ChannelType := 1;
           utils.DecryptionMode := 0; utils.Secret := "";
           utils.RecordingConfig_TranscodingConfig := transcodingConfig |}
      end in
    let requestBody :=
      StartBody
        {| utils.StartRecordRequest_Cname := utils.Channel rec;
           utils.StartRecordRequest_UID := string_of_rune (utils.UID rec);
           utils.StartRecordRequest_ClientRequest :=
             {| utils.ClientRequest_Token := utils.Token rec;
                utils.ClientRequest_RecordingConfig := recordingConfig;
                utils.ClientRequest_StorageConfig :=
                  {| utils.Vendor := RECORDING_VENDOR env;
                     utils.Region := RECORDING_REGION env;
                     utils.Bucket := BUCKET_NAME env;
                     utils.AccessKey := BUCKET_ACCESS_KEY env;
                     utils.SecretKey := BUCKET_ACCESS_SECRET env;
                     utils.FileNamePrefix :=
                       [channelTitle; currentDate env; currentTime env] |} |} |} in
    let url :=
      api +:+ APP_ID env +:+ "/cloud_recording/resourceid/" +:+ utils.RID rec
          +:+ "/mode/mix/start" in
    match NewRequest_err env url with
    | Some err => ret (Some err, rec)
    | None =>
      resp <- Do (post url requestBody) ;;
      match resp with
      | inl err => ret (Some err, rec)
      | inr resp =>
        ret (None,
             {| utils.Channel := utils.Channel rec; utils.Token := utils.Token rec;
                utils.UID := utils.UID rec; utils.RID := utils.RID rec;
                utils.SID := map_index (Decoded resp) "sid" |})
      end
    end
  end.

(** [Stop(channel string, uid int, rid string, sid string) error]. *)
Definition Stop (channel : string) (uid : Z) (rid sid : string) : M (option error) :=
  let requestBody :=
    AcquireBody
      {| utils.AcquireRequest_Cname := channel;
         utils.AcquireRequest_UID := string_of_rune uid;
         utils.AcquireRequest_ClientRequest := {| utils.ResourceExpiredHour := 0 |} |} in
  let url :=
    api +:+ APP_ID env +:+ "/cloud_recording/resourceid/" +:+ rid +:+ "/sid/" +:+ sid
        +:+ "/mode/mix/stop" in
  match NewRequest_err env url with
  | Some err => ret (Some err)
  | None =>
    resp <- Do (post url requestBody) ;;
    match resp with
    | inl err => ret (Some err)
    | inr _ => logf InfoLevel "Stop Cloud Recording Response" ;;; ret None
    end
  end.

(** ** The resolvers (graph/schema.resolvers.go) *)

Definition record_columns : list col.Column :=
  [col.id; col.title; col.channel_name; col.channel_secret; col.host_passphrase;
   col.viewer_passphrase].

Definition session_columns : list col.Column :=
  [col.title; col.channel_name; col.channel_secret; col.host_passphrase;
   col.viewer_passphrase].

(** [SELECT id, title, channel_name, channel_secret, host_passphrase,
     viewer_passphrase FROM channels WHERE host_passphrase = $1 OR
     viewer_passphrase = $1] (lines 158 and 232). *)
Definition StartRecordingSession_query : SelectQuery :=
  {| sel_columns := record_columns; sel_host := Bind1; sel_viewer := Bind1 |}.

Definition StopRecordingSession_query : SelectQuery :=
  {| sel_columns := record_columns; sel_host := Bind1; sel_viewer := Bind1 |}.

(** The same statement without [id] (line 339). *)
Definition JoinChannel_query : SelectQuery :=
  {| sel_columns := session_columns; sel_host := Bind1; sel_viewer := Bind1 |}.

(** [... WHERE host_passphrase = '$1' OR viewer_passphrase = '$1'] (line
    386): here [$1] stands between quotes, which makes it a string literal
    of two characters and leaves the statement without a placeholder. *)
Definition Share_query : SelectQuery :=
  {| sel_columns := session_columns; sel_host := Quoted "$1"; sel_viewer := Quoted "$1" |}.

Definition CreateChannel (ctx : Context) (title : string) (enablePstn : option bool)
  : M model.ShareResponse :=
  logf InfoLevel "Creating Channel" ;;;
  (match enablePstn with
   | Some _ => logf InfoLevel ""
   | None => ret tt
   end) ;;;
  (if ENABLE_OAUTH env then
     match GetUserFromContext ctx with
     | None => logf DebugLevel "Invalid Token" ;;; fail (errorsNew "Invalid Token")
     | Some _ => ret tt
     end
   else ret tt) ;;;
  r <- GenerateUUID ;;
  hostPhrase <-
    match r with
    | inl _ => logf ErrorLevel "Host Phrase generation failed" ;;; fail errInternalServer
    | inr u => ret u
    end ;;
  r <- GenerateUUID ;;
  viewPhrase <-
    match r with
    | inl _ => logf ErrorLevel "View Phrase generation failed" ;;; fail errInternalServer
    | inr u => ret u
    end ;;
  r <- GenerateUUID ;;
  channelName <-
    match r with
    | inl _ => logf ErrorLevel "Channel Name generation failed" ;;; fail errInternalServer
    | inr u => ret u
    end ;;
  let channel := ReplaceAll_dash channelName in
  r <- GenerateUUID ;;
  secretGen <-
    match r with
    | inl err => fail err
    | inr u => ret u
    end ;;
  let secret := ReplaceAll_dash secretGen in
  r <- GenerateDTMF ;;
  dtmfResult <-
    match r with
    | inl _ => logf ErrorLevel "DTMF generation failed" ;;; fail errInternalServer
    | inr d => ret d
    end ;;
  (* line 73: [if *enablePstn] *)
  pstnResponse <-
    match enablePstn with
    | None => panic "invalid memory address or nil pointer dereference"
    | Some true => ret (Some {| model.Number := PSTN_NUMBER env; model.Dtmf := dtmfResult |})
    | Some false => ret None
    end ;;
  let newChannel :=
    {| models.ID := 0;
       models.Title := title;
       models.ChannelName := channel;
       models.ChannelSecret := secret;
       models.HostPassphrase := hostPhrase;
       models.ViewerPassphrase := viewPhrase;
       models.DTMF := dtmfResult;
       models.RecordingUID := sql.NullInt32_zero;
       models.RecordingRID := sql.NullString_zero;
       models.RecordingSID := sql.NullString_zero |} in
  err <- DB_Insert newChannel ;;
  match err with
  | Some _ => logf ErrorLevel "Adding new channel to DB Failed" ;;; fail errInternalServer
  | None =>
    ret {| model.ShareResponse_Passphrase :=
             {| model.Host := Some hostPhrase; model.View := viewPhrase |};
           model.ShareResponse_Title := title;
           model.ShareResponse_Channel := channel;
           model.ShareResponse_Pstn := pstnResponse |}
  end.

Definition StartRecordingSession (ctx : Context) (passphrase : string) (secret : option string)
  : M string :=
  logf InfoLevel "" ;;;
  (match secret with
   | Some _ => logf InfoLevel ""
   | None => ret tt
   end) ;;;
  let authUser := if ENABLE_OAUTH env then GetUserFromContext ctx else None in
  if String.eqb passphrase "" then fail (errorsNew "Passphrase cannot be empty") else
  r <- DB_Get StartRecordingSession_query passphrase ;;
  channelData <-
    match r with
    | None => logf DebugLevel "Invalid Passphrase" ;;; fail (errorsNew "Invalid URL")
    | Some c => ret c
    end ;;
  host <-
    (if String.eqb passphrase (models.HostPassphrase channelData) then ret true
     else if String.eqb passphrase (models.ViewerPassphrase channelData) then ret false
     else logf DebugLevel "Invalid Passphrase; Interal Server Error" ;;;
          fail (errorsNew "Invalid URL")) ;;
  if negb host then
    logf DebugLevel "Unauthorized to record channel" ;;;
    fail (errorsNew "Unauthorised to record channel")
  else
  let title :=
    match authUser with
    | None => models.Title channelData
    | Some u => models.Name u
    end in
  let finalTitle' := finalTitle title in
  let recorder :=
    {| utils.Channel := models.ChannelName channelData; utils.Token := "";
       utils.UID := 0; utils.RID := ""; utils.SID := "" |} in
  a <- Acquire recorder ;;
  recorder <-
    match a with
    | (Some _, _) => logf ErrorLevel "Acquire Failed" ;;; fail errInternalServer
    | (None, rec) => ret rec
    end ;;
  s <- Start recorder finalTitle' secret ;;
  recorder <-
    match s with
    | (Some _, _) => logf ErrorLevel "Start Failed" ;;; fail errInternalServer
    | (None, rec) => ret rec
    end ;;
  let recordDetails :=
    {| models.ID := models.ID channelData;
       models.Title := ""; models.ChannelName := ""; models.ChannelSecret := "";
       models.HostPassphrase := ""; models.ViewerPassphrase := ""; models.DTMF := "";
       models.RecordingUID :=
         {| sql.NullInt32_Int32 := utils.UID recorder; sql.NullInt32_Valid := true |};
       models.RecordingRID :=
         {| sql.NullString_String := utils.RID recorder; sql.NullString_Valid := true |};
       models.RecordingSID :=
         {| sql.NullString_String := utils.SID recorder; sql.NullString_Valid := true |} |} in
  err <- DB_UpdateRecording recordDetails ;;
  match err with
  | Some _ => logf ErrorLevel "Updating database for recording failed" ;;; fail errInternalServer
  | None => ret "success"
  end.

Definition StopRecordingSession (ctx : Context) (passphrase : string) : M string :=
  logf InfoLevel "" ;;;
  if String.eqb passphrase "" then fail (errorsNew "Passphrase cannot be empty") else
  r <- DB_Get StopRecordingSession_query passphrase ;;
  channelData <-
    match r with
    | None => logf DebugLevel "Invalid Passphrase" ;;; fail (errorsNew "Invalid URL")
    | Some c => ret c
    end ;;
  host <-
    (if String.eqb passphrase (models.HostPassphrase channelData) then ret true
     else if String.eqb passphrase (models.ViewerPassphrase channelData) then ret false
     else logf DebugLevel "Invalid Passphrase; Interal Server Error" ;;;
          fail (errorsNew "Invalid URL")) ;;
  if negb host then
    logf DebugLevel "Unauthorized to record channel" ;;;
    fail (errorsNew "Unauthorised to record channel")
  else
  if negb (sql.NullString_Valid (models.RecordingRID channelData))
     || negb (sql.NullString_Valid (models.RecordingSID channelData))
     || negb (sql.NullInt32_Valid (models.RecordingUID channelData))
  then
    logf DebugLevel "RID or SID or UID not in DB" ;;;
    fail (errorsNew "Recording not started")
  else
  err <- Stop (models.ChannelName channelData)
              (sql.NullInt32_Int32 (models.RecordingUID channelData))
              (sql.NullString_String (models.RecordingRID channelData))
              (sql.NullString_String (models.RecordingSID channelData)) ;;
  match err with
  | Some _ => logf ErrorLevel "Stop recording failed" ;;; fail errInternalServer
  | None => ret "success"
  end.

Definition JoinChannel (ctx : Context) (passphrase : string) : M model.Session :=
  logf InfoLevel "" ;;;
  if String.eqb passphrase "" then fail (errorsNew "Passphrase cannot be empty") else
  r <- DB_Get JoinChannel_query passphrase ;;
  channelData <-
    match r with
    | None => logf DebugLevel "Invalid Passphrase" ;;; fail (errorsNew "Invalid URL")
    | Some c => ret c
    end ;;
  host <-
    (if String.eqb passphrase (models.HostPassphrase channelData) then ret true
     else if String.eqb passphrase (models.ViewerPassphrase channelData) then ret false
     else logf DebugLevel "Invalid Passphrase; Interal Server Error" ;;;
          fail (errorsNew "Invalid URL")) ;;
  r <- GenerateUserCredentials (models.ChannelName channelData) true ;;
  mainUser <-
    match r with
    | inl _ =>
      logf ErrorLevel "Could not generate main user credentials" ;;; fail errInternalServer
    | inr c => ret c
    end ;;
  r <- GenerateUserCredentials (models.ChannelName channelData) false ;;
  screenShare <-
    match r with
    | inl _ =>
      logf ErrorLevel "Could not generate screenshare user credentails" ;;;
      fail errInternalServer
    | inr c => ret c
    end ;;
  ret {| model.Session_Title := models.Title channelData;
         model.Session_Channel := models.ChannelName channelData;
         model.Session_IsHost := host;
         model.Session_MainUser := mainUser;
         model.Session_ScreenShare := screenShare;
         model.Session_Secret := models.ChannelSecret channelData |}.

Definition Share (ctx : Context) (passphrase : string) : M model.ShareResponse :=
  logf InfoLevel "" ;;;
  if String.eqb passphrase "" then fail (errorsNew "Passphrase cannot be empty") else
  r <- DB_Get Share_query passphrase ;;
  channelData <-
    match r with
    | None => logf DebugLevel "Invalid Passphrase" ;;; fail (errorsNew "Invalid URL")
    | Some c => ret c
    end ;;
  host <-
    (if String.eqb passphrase (models.HostPassphrase channelData) then ret true
     else if String.eqb passphrase (models.ViewerPassphrase channelData) then ret false
     else logf DebugLevel "Invalid Passphrase; Interal Server Error" ;;;
          fail (errorsNew "Invalid URL")) ;;
  let hostPassphrase :=
    if (host : bool) then Some (models.HostPassphrase channelData) else None in
  let pstnResult :=
    if negb (String.eqb (models.DTMF channelData) "") then
      Some {| model.Number := PSTN_NUMBER env; model.Dtmf := models.DTMF channelData |}
    else None in
  ret {| model.ShareResponse_Passphrase :=
           {| model.Host := hostPassphrase; model.View := models.ViewerPassphrase channelData |};
         model.ShareResponse_Channel := models.ChannelName channelData;
         model.ShareResponse_Title := models.Title channelData;
         model.ShareResponse_Pstn := pstnResult |}.

End Service.

(** ** Notions used to state the properties *)

(** The specification's title sanitization, in its own words: the
    characters outside [[A-Za-z0-9]] are removed and the result is
    truncated to 100 characters. *)
Definition strip_non_alnum (s : string) : string := filter_bytes is_alnum_byte s.

Definition truncate (n : nat) (s : string) : string := substring 0 n s.

Definition sanitized_title_spec (title : string) : string :=
  truncate 100 (strip_non_alnum title).

(** The role a passphrase resolves to (derived, never stored). *)
Inductive Role : Type := RoleHost | RoleViewer.

(** The lookup of a resolver, made in world [w] with a non-empty
    passphrase, returns the row [c], and the comparison of the resolver
    gives the role. *)
Definition resolves (env : Env) (w : World) (q : SelectQuery) (passphrase : string)
  (c : models.Channel) (role : Role) : Prop :=
  passphrase <> ""
  /\ db_lookup env (channels w) (clock w) q passphrase = Some c
  /\ match role with
     | RoleHost => passphrase = models.HostPassphrase c
     | RoleViewer =>
       passphrase <> models.HostPassphrase c /\ passphrase = models.ViewerPassphrase c
     end.

(** The lookup returns a row of which neither passphrase is the input. *)
Definition inconsistent_lookup (env : Env) (w : World) (q : SelectQuery) (passphrase : string)
  (c : models.Channel) : Prop :=
  passphrase <> ""
  /\ db_lookup env (channels w) (clock w) q passphrase = Some c
  /\ passphrase <> models.HostPassphrase c
  /\ passphrase <> models.ViewerPassphrase c.

(** The operations that take a passphrase. *)
Inductive Operation : Type :=
| OpJoinChannel
| OpShare
| OpStartRecording (secret : option string)
| OpStopRecording.

Definition query_of (op : Operation) : SelectQuery :=
  match op with
  | OpJoinChannel => JoinChannel_query
  | OpShare => Share_query
  | OpStartRecording _ => StartRecordingSession_query
  | OpStopRecording => StopRecordingSession_query
  end.

(** How a call ended, without the value it returned. *)
Definition outcome {A} (r : Result A * World) : Result unit * World :=
  match r with
  | (Return _, w) => (Return tt, w)
  | (Error e, w) => (Error e, w)
  | (Panic msg, w) => (Panic msg, w)
  end.

Definition invoke (env : Env) (ctx : Context) (op : Operation) (passphrase : string)
  : M unit :=
  fun w =>
    match op with
    | OpJoinChannel => outcome (JoinChannel env ctx passphrase w)
    | OpShare => outcome (Share env ctx passphrase w)
    | OpStartRecording secret => outcome (StartRecordingSession env ctx passphrase secret w)
    | OpStopRecording => outcome (StopRecordingSession env ctx passphrase w)
    end.

(** A request to the service, and the world after a sequence of requests
    served one after the other. *)
Inductive Call : Type :=
| CallCreateChannel (ctx : Context) (title : string) (enablePstn : option bool)
| CallInvoke (ctx : Context) (op : Operation) (passphrase : string).

Definition serve (env : Env) (c : Call) (w : World) : World :=
  match c with
  | CallCreateChannel ctx title enablePstn => snd (CreateChannel env ctx title enablePstn w)
  | CallInvoke ctx op passphrase => snd (invoke env ctx op passphrase w)
  end.

Definition serve_all (env : Env) (cs : list Call) (w : World) : World :=
  fold_left (fun w c => serve env c w) cs w.

(** The request that [Acquire] sends for a channel, once the credentials
    are generated. *)
Definition acquire_url (env : Env) : string :=
  api +:+ APP_ID env +:+ "/cloud_recording/acquire".

Definition acquire_request (env : Env) (channel : string) (creds : model.UserCredentials)
  : Request :=
  post env (acquire_url env)
    (AcquireBody
       {| utils.AcquireRequest_Cname := channel;
          utils.AcquireRequest_UID := string_of_rune (int32 (model.UID creds));
          utils.AcquireRequest_ClientRequest := {| utils.ResourceExpiredHour := 24 |} |}).

(** The failures [Acquire] can meet at time [t]: the credentials cannot be
    generated, the request cannot be built, or the round trip fails. *)
Definition acquire_fault (env : Env) (t : nat) (channel : string) (e : error) : Prop :=
  creds_at env t channel false = inl e
  \/ exists creds,
       creds_at env t channel false = inr creds
       /\ (NewRequest_err env (acquire_url env) = Some e
           \/ (NewRequest_err env (acquire_url env) = None
               /\ http_Do env (S t) (acquire_request env channel creds) = inl e)).

(** A row of the table matches the statement of StopRecordingSession and
    its host passphrase is the input. *)
Definition stored_host (env : Env) (w : World) (passphrase : string) (row : models.Channel)
  : Prop :=
  passphrase <> ""
  /\ db_err env (clock w) = None
  /\ find (where_matches env StopRecordingSession_query passphrase) (channels w) = Some row
  /\ passphrase = models.HostPassphrase row.

(** The passphrases stored in the table, in row order. *)
Definition passphrases (rows : list models.Channel) : list string :=
  flat_map (fun r => [models.HostPassphrase r; models.ViewerPassphrase r]) rows.

(** Modelled from the spec: the identifier generator never yields the same
    opaque identifier twice (the specification's negligible collision
    probability, taken as none). *)
Definition uuid_fresh (env : Env) : Prop :=
  forall i j a, uuid_at env i = inr a -> uuid_at env j = inr a -> i = j.

(** Every stored passphrase was issued by the generator, each by a draw of
    its own, before the present time. *)
Definition issued (env : Env) (w : World) : Prop :=
  exists idx : list nat,
    Forall2 (fun i p => uuid_at env i = inr p) idx (passphrases (channels w))
    /\ NoDup idx
    /\ Forall (fun i => i < clock w) idx.

(** The recording triple of a row: all three present, all three absent. *)
Definition recording_full (c : models.Channel) : bool :=
  sql.NullString_Valid (models.RecordingRID c)
  && sql.NullString_Valid (models.RecordingSID c)
  && sql.NullInt32_Valid (models.RecordingUID c).

Definition recording_absent (c : models.Channel) : bool :=
  negb (sql.NullString_Valid (models.RecordingRID c))
  && negb (sql.NullString_Valid (models.RecordingSID c))
  && negb (sql.NullInt32_Valid (models.RecordingUID c)).

(** The specification's invariant on the recording state of a channel. *)
Definition recording_all_or_nothing (c : models.Channel) : Prop :=
  recording_full c = true \/ recording_absent c = true.

(** ** Environments and worlds for the examples *)

(** Identifiers [u], [xu], [xxu], ...: one per draw. *)
Fixpoint ident (n : nat) : string :=
  match n with
  | O => "u"
  | S k => String "x"%char (ident k)
  end.

(** The upstream mock of the specification's end-to-end test: resource id
    [R1], session id [S1]. *)
Definition upstream_ok : Response :=
  {| StatusCode := 200; Decoded := {[ "resourceId" := "R1"; "sid" := "S1" ]} |}.

(** A non-success response without a resource id. *)
Definition upstream_refusal : Response :=
  {| StatusCode := 401; Decoded := ∅ |}.

Definition mock_env (strict : bool) (eq : string -> string -> bool)
  (upstream : error + Response) : Env :=
  {| ENABLE_OAUTH := false; PSTN_NUMBER := "+18005550100"; APP_ID := "app";
     CUSTOMER_ID := "customer"; CUSTOMER_CERTIFICATE := "certificate";
     RECORDING_VENDOR := 1; RECORDING_REGION := 0; BUCKET_NAME := "bucket";
     BUCKET_ACCESS_KEY := "key"; BUCKET_ACCESS_SECRET := "secret";
     uuid_at := fun t => inr (ident t);
     dtmf_at := fun _ => inr "4711";
     creds_at := fun _ _ _ => inr {| model.UID := 7; model.Rtc := "token" |};
     NewRequest_err := fun _ => None;
     http_Do := fun _ _ => upstream;
     db_err := fun _ => None;
     sql_eq := eq;
     strict_args := strict;
     LoadLocation_err := None;
     currentDate := "20200101";
     currentTime := "120000" |}.

(** A store that compares byte by byte and checks bound arguments. *)
Definition demo_env : Env := mock_env true String.eqb (inr upstream_ok).

(** The same store, without the check of bound arguments. *)
Definition lenient_env : Env := mock_env false String.eqb (inr upstream_ok).

(** The recording service refuses every request. *)
Definition refused_env : Env := mock_env true String.eqb (inr upstream_refusal).

(** The recording service cannot be reached. *)
Definition unreachable_env : Env :=
  mock_env true String.eqb (inl (errorsNew "dial tcp: connection refused")).

(** ASCII case folding, and a store whose passphrase columns have a
    case-insensitive collation. *)
Definition fold_case (c : ascii) : ascii :=
  if ((65 <=? byte_val c) && (byte_val c <=? 90))%N then ascii_of_N (byte_val c + 32) else c.

Fixpoint fold_string (s : string) : string :=
  match s with
  | EmptyString => EmptyString
  | String c s' => String (fold_case c) (fold_string s')
  end.

Definition ci_eqb (a b : string) : bool := String.eqb (fold_string a) (fold_string b).

Definition ci_env : Env := mock_env true ci_eqb (inr upstream_ok).

Definition no_ctx : Context := {| ctx_user := None |}.

Definition empty_world : World :=
  {| channels := []; clock := 0; log := []; db_calls := []; requests := [] |}.

(** A channel whose recording triple is fully populated. *)
Definition recorded_channel : models.Channel :=
  {| models.ID := 1; models.Title := "Weekly sync"; models.ChannelName := "room";
     models.ChannelSecret := "s3cr3t"; models.HostPassphrase := "host-phrase";
     models.ViewerPassphrase := "view-phrase"; models.DTMF := "4711";
     models.RecordingUID := {| sql.NullInt32_Int32 := 7; sql.NullInt32_Valid := true |};
     models.RecordingRID := {| sql.NullString_String := "R1"; sql.NullString_Valid := true |};
     models.RecordingSID := {| sql.NullString_String := "S1"; sql.NullString_Valid := true |} |}.

Definition recorded_world : World :=
  {| channels := [recorded_channel]; clock := 0; log := []; db_calls := []; requests := [] |}.

(** The same channel before any recording. *)
Definition idle_channel : models.Channel :=
  {| models.ID := 1; models.Title := "Weekly sync"; models.ChannelName := "room";
     models.ChannelSecret := "s3cr3t"; models.HostPassphrase := "host-phrase";
     models.ViewerPassphrase := "view-phrase"; models.DTMF := "4711";
     models.RecordingUID := sql.NullInt32_zero;
     models.RecordingRID := sql.NullString_zero;
     models.RecordingSID := sql.NullString_zero |}.

Definition idle_world : World :=
  {| channels := [idle_channel]; clock := 0; log := []; db_calls := []; requests := [] |}.

(** A channel whose host passphrase is the two characters [$1]. *)
Definition dollar_channel : models.Channel :=
  {| models.ID := 1; models.Title := "Weekly sync"; models.ChannelName := "room";
     models.ChannelSecret := "s3cr3t"; models.HostPassphrase := "$1";
     models.ViewerPassphrase := "view-phrase"; models.DTMF := "4711";
     models.RecordingUID := sql.NullInt32_zero;
     models.RecordingRID := sql.NullString_zero;
     models.RecordingSID := sql.NullString_zero |}.

Definition dollar_world : World :=
  {| channels := [dollar_channel]; clock := 0; log := []; db_calls := []; requests := [] |}.

Definition idle_recorder : utils.Recorder :=
  {| utils.Channel := "room"; utils.Token := ""; utils.UID := 0;
     utils.RID := ""; utils.SID := "" |}.

(** A title of 150 characters, 120 of them alphanumeric. *)
Definition long_title : string :=
  let block := "ab!cd#EF12" in
  let five := block +:+ block +:+ block +:+ block +:+ block in
  five +:+ five +:+ five.

(** ** Further notions: runes *)

(** [utf8.RuneCountInString]: the number of runes of [s], every byte of an
    invalid encoding counting for one.  [skip] is the number of bytes of
    the current rune still to be passed over. *)
Fixpoint RuneCount_loop (s : string) (skip : nat) : nat :=
  match s with
  | EmptyString => 0
  | String c s' =>
    match skip with
    | S k => RuneCount_loop s' k
    | O => S (RuneCount_loop s' (snd (DecodeRuneInString s) - 1))
    end
  end.

Definition RuneCountInString (s : string) : nat := RuneCount_loop s 0.

(** The docstring of [FirstN] in its own words, "the first N characters of
    a string": the bytes of the first [k] runes of [s], after the [skip]
    bytes that finish the rune before them. *)
Fixpoint take_runes (s : string) (skip k : nat) : string :=
  match s with
  | EmptyString => EmptyString
  | String c s' =>
    match skip with
    | S sk => String c (take_runes s' sk k)
    | O =>
      match k with
      | O => EmptyString
      | S k' => String c (take_runes s' (snd (DecodeRuneInString s) - 1) k')
      end
    end
  end.

(** What is left of [s] behind its first [k] runes, the [skip] bytes that
    finish the rune under way counted with them. *)
Fixpoint drop_runes (s : string) (skip k : nat) : string :=
  match s with
  | EmptyString => EmptyString
  | String c s' =>
    match skip with
    | S sk => drop_runes s' sk k
    | O =>
      match k with
      | O => s
      | S k' => drop_runes s' (snd (DecodeRuneInString s) - 1) k'
      end
    end
  end.

(** [FirstN] with its bound as the [int] it is in the source.  The counter
    [i] starts at zero and is only ever incremented, so that [i == n] holds
    for no negative [n]; no string is long enough for [i] to wrap around. *)
Fixpoint FirstN_range_int (s : string) (skip : nat) (i : Z) (j : nat) (n : Z) : option nat :=
  match s with
  | EmptyString => None
  | String c s' =>
    match skip with
    | S k => FirstN_range_int s' k i (S j) n
    | O =>
      if Z.eqb i n then Some j
      else FirstN_range_int s' (snd (DecodeRuneInString s) - 1) (i + 1)%Z (S j) n
    end
  end.

Definition FirstN_int (s : string) (n : Z) : string :=
  match FirstN_range_int s 0 0 0 n with
  | Some j => slice_to j s
  | None => s
  end.

(** The word [caf\u00e9]: four runes in five bytes. *)
Definition cafe : string :=
  "caf" +:+ String (byte_of_Z 195) (String (byte_of_Z 169) EmptyString).

(** ** Further notions: the recording client *)

(** The addresses of the start and stop endpoints. *)
Definition start_url (env : Env) (rid : string) : string :=
  api +:+ APP_ID env +:+ "/cloud_recording/resourceid/" +:+ rid +:+ "/mode/mix/start".

Definition stop_url (env : Env) (rid sid : string) : string :=
  api +:+ APP_ID env +:+ "/cloud_recording/resourceid/" +:+ rid +:+ "/sid/" +:+ sid
      +:+ "/mode/mix/stop".

(** The encoding of U+FFFD, which [string(x)] yields for a number that is
    no code point. *)
Definition replacement_char : string :=
  String (byte_of_Z 239) (String (byte_of_Z 191) (String (byte_of_Z 189) EmptyString)).

(** ** Further environments *)

(** An environment given by its OAuth flag, its generators, its upstream,
    the failures of its store and of its time zone data; the store compares
    byte by byte and checks bound arguments. *)
Definition custom_env (oauth : bool) (uuid : nat -> error + string)
  (creds : nat -> string -> bool -> error + model.UserCredentials)
  (upstream : nat -> Request -> error + Response)
  (dberr : nat -> option error) (tz : option error) : Env :=
  {| ENABLE_OAUTH := oauth; PSTN_NUMBER := "+18005550100"; APP_ID := "app";
     CUSTOMER_ID := "customer"; CUSTOMER_CERTIFICATE := "certificate";
     RECORDING_VENDOR := 1; RECORDING_REGION := 0; BUCKET_NAME := "bucket";
     BUCKET_ACCESS_KEY := "key"; BUCKET_ACCESS_SECRET := "secret";
     uuid_at := uuid;
     dtmf_at := fun _ => inr "4711";
     creds_at := creds;
     NewRequest_err := fun _ => None;
     http_Do := upstream;
     db_err := dberr;
     sql_eq := String.eqb;
     strict_args := true;
     LoadLocation_err := tz;
     currentDate := "20200101";
     currentTime := "120000" |}.

Definition good_uuid (t : nat) : error + string := inr (ident t).

Definition good_creds (t : nat) (channel : string) (isMain : bool)
  : error + model.UserCredentials :=
  inr {| model.UID := 7; model.Rtc := "token" |}.

Definition good_upstream (t : nat) (req : Request) : error + Response := inr upstream_ok.

Definition no_dberr (t : nat) : option error := None.


(** Credentials whose numeric id does not fit a signed 32-bit integer. *)
Definition high_uid_env (uid : Z) : Env :=
  custom_env false good_uuid
    (fun _ _ _ => inr {| model.UID := uid; model.Rtc := "token" |})
    good_upstream no_dberr None.

(** ** Further notions: channels *)

Definition not_dash (c : ascii) : bool := negb (Ascii.eqb c "-"%char).

(** An environment in which the fourth identifier of the first request
    cannot be generated. *)
Definition no_secret_env : Env :=
  custom_env false
    (fun t => if Nat.eqb t 3 then inl (errorsNew "rand: short read") else inr (ident t))
    good_creds good_upstream no_dberr None.

(** An environment in which the screen-share credentials of a join made at
    time 0 cannot be generated (the lookup takes time 0, the main
    credentials time 1). *)
Definition no_screen_creds_env : Env :=
  custom_env false good_uuid
    (fun t _ _ => if Nat.eqb t 2 then inl (errorsNew "token: signing failed")
                  else inr {| model.UID := 7; model.Rtc := "token" |})
    good_upstream no_dberr None.

(** Two rows agree on everything but the recording state. *)
Definition same_identity (row row' : models.Channel) : Prop :=
  models.ID row' = models.ID row
  /\ models.Title row' = models.Title row
  /\ models.ChannelName row' = models.ChannelName row
  /\ models.ChannelSecret row' = models.ChannelSecret row
  /\ models.HostPassphrase row' = models.HostPassphrase row
  /\ models.ViewerPassphrase row' = models.ViewerPassphrase row
  /\ models.DTMF row' = models.DTMF row.

(** The title StartRecordingSession sanitizes: the name of the
    authenticated caller when OAuth is enabled and the request carries one,
    the title of the channel otherwise. *)
Definition recording_title (env : Env) (ctx : Context) (c : models.Channel) : string :=
  match (if ENABLE_OAUTH env then ctx_user ctx else None) with
  | None => models.Title c
  | Some u => models.Name u
  end.

(** An OAuth deployment, and a request of the authenticated user Ada. *)
Definition oauth_env : Env :=
  custom_env true good_uuid good_creds good_upstream no_dberr None.

Definition ada_ctx : Context := {| ctx_user := Some {| models.Name := "Ada L." |} |}.

(** The store fails at time 4: for a recording started at time 0, at the
    UPDATE. *)
Definition update_fails_env : Env :=
  custom_env false good_uuid good_creds good_upstream
    (fun t => if Nat.eqb t 4 then Some (errorsNew "pq: connection reset") else None) None.

(** The time zone data is missing. *)
Definition no_tz_env : Env :=
  custom_env false good_uuid good_creds good_upstream no_dberr
    (Some (errorsNew "unknown time zone America/Los_Angeles")).

(** A title without any ASCII letter or digit: [Besprechung] in Cyrillic
    letters would be such; here two two-byte runes and a space. *)
Definition foreign_title : string :=
  String (byte_of_Z 208) (String (byte_of_Z 150)
    (String " "%char (String (byte_of_Z 208) (String (byte_of_Z 176) EmptyString)))).

(** ** The session resolver LogoutSession *)

Module account.

(** Modelled from the spec: the declarations of [models.User] and
    [models.Token] that LogoutSession uses are not among the sources, and
    the specification names the caller's identity only, as the result of
    [GetUserFromContext(requestContext) -> (identity|Unauthenticated)].
    Their fields are the ones LogoutSession reads, each bound to the column
    of the same name in its statements on table [tokens]. *)
Record User : Type := { ID : Z; Identifier : string }.

Record Token : Type := { TokenID : string; UserID : Z }.

(** The request context as LogoutSession reads it: the authenticated
    caller, if any. *)
Record Context : Type := { auth_user : option User }.

End account.

(** The rows that
    [DELETE FROM tokens WHERE token_id = :token_id AND user_id = :user_id]
    removes; the store compares the token ids as it compares passphrases. *)
Definition token_deleted (env : Env) (token : string) (user : Z) (row : account.Token) : bool :=
  sql_eq env (account.TokenID row) token && Z.eqb (account.UserID row) user.

(** The rows that [SELECT * FROM tokens WHERE user_id = $1] returns. *)
Definition token_of_user (user : Z) (row : account.Token) : bool :=
  Z.eqb (account.UserID row) user.

(** [LogoutSession] (lines 265-308).  It works on table [tokens] alone,
    which is passed in and out beside the world; the world gives the clock
    of the store's failures and takes the log.  The three interactions with
    the store (the DELETE, the count of the rows it affected, the SELECT)
    can each fail at their time. *)
Definition LogoutSession (env : Env) (ctx : account.Context) (token : string)
  (tokens : list account.Token) (w : World)
  : Result (list string) * (list account.Token * World) :=
  let w0 := snd (logf InfoLevel "" w) in
  match account.auth_user ctx with
  | None =>
    (Error (errorsNew "Invalid Token"), (tokens, snd (logf DebugLevel "Invalid Token" w0)))
  | Some authUser =>
    let w1 := snd (tick w0) in
    match db_err env (clock w0) with
    | Some _ =>
      (Error errInternalServer,
       (tokens, snd (logf ErrorLevel "Could not delete token from database" w1)))
    | None =>
      let gone := token_deleted env token (account.ID authUser) in
      let rowsAffected := Z.of_nat (length (List.filter gone tokens)) in
      let tokens1 := List.filter (fun row => negb (gone row)) tokens in
      let w2 := snd (tick w1) in
      match db_err env (clock w1) with
      | Some _ =>
        (Error errInternalServer,
         (tokens1,
          snd (logf ErrorLevel "Could not get Rows Affected by DELETE in database" w2)))
      | None =>
        if (rowsAffected <? 1)%Z then
          (Error errBadRequest, (tokens1, snd (logf DebugLevel "Token does not exist" w2)))
        else
          let w3 := snd (tick w2) in
          match db_err env (clock w2) with
          | Some _ =>
            (Error errInternalServer,
             (tokens1,
              snd (logf ErrorLevel "Could not get tokens for this user ID" w3)))
          | None =>
            (Return (map account.TokenID
                       (List.filter (token_of_user (account.ID authUser)) tokens1)),
             (tokens1, w3))
          end
      end
    end
  end.

(** Ada (user 1) has two sessions, Bob (user 2) one. *)
Definition ada : account.Context :=
  {| account.auth_user := Some {| account.ID := 1; account.Identifier := "ada" |} |}.

Definition some_tokens : list account.Token :=
  [ {| account.TokenID := "t-ada-1"; account.UserID := 1 |};
    {| account.TokenID := "t-bob-1"; account.UserID := 2 |};
    {| account.TokenID := "t-ada-2"; account.UserID := 1 |} ].

(** The store fails at time 2: for a logout begun at time 0, at the SELECT. *)
Definition select_fails_env : Env :=
  custom_env false good_uuid good_creds good_upstream
    (fun t => if Nat.eqb t 2 then Some (errorsNew "pq: connection reset") else None) None.

(** * Properties *)

(** ** Strings *)

Lemma mod_split (a k : N) :
  (k <> 0 -> exists q r, a = k * q + r /\ r < k /\ a mod k = r)%N.
Proof.
  intros Hk. exists (a / k)%N, (a mod k)%N.
  split; [apply N.div_mod; assumption|].
  split; [apply N.mod_lt; assumption | reflexivity].
Qed.

Lemma land_mask_mod (a k : N) : N.land a (N.ones k) = (a mod 2 ^ k)%N.
Proof. apply N.land_ones. Qed.

(** The masks of the decoder are remainders: [x land 63 = x mod 64]. *)
Ltac masks :=
  unfold low6;
  change 63%N with (N.ones 6); change 31%N with (N.ones 5);
  change 15%N with (N.ones 4); change 7%N with (N.ones 3);
  rewrite !land_mask_mod.

(** Case analysis on every comparison in [N]. *)
Ltac nbool :=
  repeat match goal with
  | H : context [(?a <=? ?b)%N] |- _ => revert H; destruct (N.leb_spec a b); intros H
  | H : context [(?a <? ?b)%N] |- _ => revert H; destruct (N.ltb_spec a b); intros H
  | H : context [(?a =? ?b)%N] |- _ => revert H; destruct (N.eqb_spec a b); intros H
  | |- context [(?a <=? ?b)%N] => destruct (N.leb_spec a b)
  | |- context [(?a <? ?b)%N] => destruct (N.ltb_spec a b)
  | |- context [(?a =? ?b)%N] => destruct (N.eqb_spec a b)
  end.

Lemma in_range_spec lo hi c :
  in_range lo hi c = true <-> (lo <= byte_val c <= hi)%N.
Proof. unfold in_range. rewrite andb_true_iff, !N.leb_le. tauto. Qed.

Lemma is_cont_spec c : is_cont c = true <-> (128 <= byte_val c <= 191)%N.
Proof. apply (in_range_spec 128 191). Qed.

Lemma high_byte_not_alnum c : (123 <= byte_val c)%N -> is_alnum_byte c = false.
Proof. unfold is_alnum_byte. intros H. cbv zeta. nbool; simpl; try reflexivity; lia. Qed.

Lemma high_rune_not_alnum r : (123 <= r)%N -> is_alnum_rune r = false.
Proof. unfold is_alnum_rune. intros H. nbool; simpl; try reflexivity; lia. Qed.

Lemma ascii_rune_byte c : is_alnum_rune (byte_val c) = is_alnum_byte c.
Proof. reflexivity. Qed.

(** Every [a mod k] of the goal is replaced by a remainder below [k]. *)
Ltac modgen :=
  masks;
  change (2 ^ 3)%N with 8%N; change (2 ^ 4)%N with 16%N;
  change (2 ^ 5)%N with 32%N; change (2 ^ 6)%N with 64%N;
  repeat match goal with
  | |- context [(?a mod ?k)%N] =>
    let q := fresh "q" in let r := fresh "r" in
    let E := fresh "E" in let L := fresh "L" in
    destruct (mod_split a k) as (q & r & E & L & ->); [discriminate|]
  end.

(** The first rune of a string is in the class only if it is one byte of
    the class; otherwise none of its bytes is. *)
Lemma DecodeRune_class c s :
  match DecodeRuneInString (String c s) with
  | (r, n) =>
    if is_alnum_rune r then n = 1 /\ is_alnum_byte c = true
    else is_alnum_byte c = false /\ prefix_none is_alnum_byte (n - 1) s
  end.
Proof.
  unfold DecodeRuneInString. cbv zeta.
  destruct (N.ltb_spec (byte_val c) 128) as [Hlow | Hhigh].
  { rewrite ascii_rune_byte. destruct (is_alnum_byte c) eqn:E; simpl; auto. }
  assert (Hc : is_alnum_byte c = false) by (apply high_byte_not_alnum; lia).
  assert (Herr : is_alnum_rune RuneError = false) by reflexivity.
  destruct (in_range 194 223 c) eqn:R2.
  { apply in_range_spec in R2.
    destruct s as [|c1 s]; [rewrite Herr; simpl; auto|].
    destruct (is_cont c1) eqn:C1; [|rewrite Herr; simpl; auto].
    apply is_cont_spec in C1.
    rewrite high_rune_not_alnum by (modgen; lia).
    simpl. split; [assumption|]. split; [apply high_byte_not_alnum; lia | exact I]. }
  destruct (in_range 224 239 c) eqn:R3.
  { apply in_range_spec in R3.
    destruct s as [|c1 [|c2 s]]; try (rewrite Herr; simpl; auto; fail).
    match goal with |- context [in_range ?lo ?hi c1] => destruct (in_range lo hi c1) eqn:C1 end;
      [|cbn [andb]; rewrite Herr; simpl; auto].
    destruct (is_cont c2) eqn:C2; [|cbn [andb]; rewrite Herr; simpl; auto].
    apply in_range_spec in C1. apply is_cont_spec in C2.
    cbn [andb]. rewrite high_rune_not_alnum by (modgen; nbool; lia).
    simpl. split; [assumption|].
    split; [apply high_byte_not_alnum; nbool; lia|].
    split; [apply high_byte_not_alnum; lia | exact I]. }
  destruct (in_range 240 244 c) eqn:R4.
  { apply in_range_spec in R4.
    destruct s as [|c1 [|c2 [|c3 s]]]; try (rewrite Herr; simpl; auto; fail).
    match goal with |- context [in_range ?lo ?hi c1] => destruct (in_range lo hi c1) eqn:C1 end;
      [|cbn [andb]; rewrite Herr; simpl; auto].
    destruct (is_cont c2) eqn:C2; [|cbn [andb]; rewrite Herr; simpl; auto].
    destruct (is_cont c3) eqn:C3; [|cbn [andb]; rewrite Herr; simpl; auto].
    apply in_range_spec in C1. apply is_cont_spec in C2. apply is_cont_spec in C3.
    cbn [andb]. rewrite high_rune_not_alnum by (modgen; nbool; lia).
    simpl. split; [assumption|].
    split; [apply high_byte_not_alnum; nbool; lia|].
    split; [apply high_byte_not_alnum; lia|].
    split; [apply high_byte_not_alnum; lia | exact I]. }
  rewrite Herr. simpl. auto.
Qed.

(** *** Title sanitization *)

Lemma ReplaceAllString_loop_filter s :
  forall skip, prefix_none is_alnum_byte skip s ->
  ReplaceAllString_loop s skip = filter_bytes is_alnum_byte s.
Proof.
  induction s as [|c s IH]; intros skip Hskip; [reflexivity|].
  destruct skip as [|k].
  - cbn [ReplaceAllString_loop filter_bytes].
    pose proof (DecodeRune_class c s) as Hd.
    destruct (DecodeRuneInString (String c s)) as [r n].
    destruct (is_alnum_rune r).
    + destruct Hd as [_ ->]. f_equal. apply IH. exact I.
    + destruct Hd as [-> Hrest]. apply IH. exact Hrest.
  - cbn [ReplaceAllString_loop filter_bytes].
    destruct Hskip as [-> Hrest]. apply IH. exact Hrest.
Qed.

Lemma ReplaceAllString_strips s : ReplaceAllString_nonalnum s = strip_non_alnum s.
Proof. apply ReplaceAllString_loop_filter. destruct s; exact I. Qed.

Lemma filter_bytes_all p s : all_bytes p (filter_bytes p s) = true.
Proof.
  induction s as [|c s IH]; [reflexivity|].
  simpl. destruct (p c) eqn:E; [simpl; rewrite E|]; exact IH.
Qed.

Lemma alnum_byte_is_ascii c : is_alnum_byte c = true -> (byte_val c < 128)%N.
Proof.
  intros H. destruct (N.ltb_spec (byte_val c) 128) as [|Hge]; [assumption|].
  rewrite high_byte_not_alnum in H by lia. discriminate.
Qed.

Lemma slice_to_substring n s : slice_to n s = substring 0 n s.
Proof.
  revert n. induction s as [|c s IH]; intros [|n]; simpl; try reflexivity.
  now rewrite IH.
Qed.

Lemma slice_to_all n s : String.length s <= n -> slice_to n s = s.
Proof.
  revert n. induction s as [|c s IH]; intros [|n] H; simpl in *; try reflexivity; try lia.
  rewrite IH by lia. reflexivity.
Qed.

Lemma slice_to_length n s : String.length (slice_to n s) = Nat.min n (String.length s).
Proof.
  revert n. induction s as [|c s IH]; intros [|n]; simpl; try reflexivity.
  now rewrite IH.
Qed.

(** On a string of one-byte runes the loop of [FirstN] returns at offset
    [n] when the string is longer than that, and runs to the end otherwise. *)
Lemma FirstN_range_alnum s :
  forall i j n, all_bytes is_alnum_byte s = true -> i <= n ->
  FirstN_range s 0 i j n =
    if Nat.ltb (n - i) (String.length s) then Some (j + (n - i)) else None.
Proof.
  induction s as [|c s IH]; intros i j n Hall Hin; [reflexivity|].
  simpl in Hall. apply andb_true_iff in Hall as [Hc Hall].
  cbn [FirstN_range String.length].
  destruct (Nat.eqb_spec i n) as [-> | Hne].
  - rewrite Nat.sub_diag. simpl. f_equal. lia.
  - assert (Hw : snd (DecodeRuneInString (String c s)) = 1).
    { unfold DecodeRuneInString. apply alnum_byte_is_ascii in Hc.
      apply N.ltb_lt in Hc. cbv zeta. rewrite Hc. reflexivity. }
    rewrite Hw. cbn [Nat.sub]. rewrite IH by (assumption || lia).
    replace (n - i) with (S (n - S i)) by lia.
    change (Nat.ltb (S (n - S i)) (S (String.length s))) with (Nat.ltb (n - S i) (String.length s)).
    destruct (Nat.ltb (n - S i) (String.length s)); [f_equal; lia | reflexivity].
Qed.

Lemma FirstN_alnum s n : all_bytes is_alnum_byte s = true -> FirstN s n = slice_to n s.
Proof.
  intros Hall. unfold FirstN.
  rewrite FirstN_range_alnum by (assumption || lia).
  rewrite Nat.sub_0_r. destruct (Nat.ltb_spec n (String.length s)) as [Hlt | Hge].
  - reflexivity.
  - symmetry. apply slice_to_all. exact Hge.
Qed.

Lemma finalTitle_spec title : finalTitle title = sanitized_title_spec title.
Proof.
  unfold finalTitle, sanitized_title_spec, truncate.
  rewrite ReplaceAllString_strips.
  rewrite FirstN_alnum by apply filter_bytes_all.
  apply slice_to_substring.
Qed.

(** C5.  For every title, the title handed to the recorder is the input
    with every character outside [A-Za-z0-9] removed, truncated to 100
    characters: it has at most 100 characters, and exactly 100 when the
    input has more than 100 alphanumeric characters; the title
    [My Channel! #1] becomes [MyChannel1]. *)
Theorem title_sanitization (title : string) :
  finalTitle title = sanitized_title_spec title
  /\ String.length (finalTitle title) <= 100
  /\ (100 < String.length (strip_non_alnum title) ->
      String.length (finalTitle title) = 100)
  /\ finalTitle "My Channel! #1" = "MyChannel1".
Proof.
  assert (Hlen : String.length (finalTitle title)
                 = Nat.min 100 (String.length (strip_non_alnum title))).
  { rewrite finalTitle_spec. unfold sanitized_title_spec, truncate.
    rewrite <- slice_to_substring. apply slice_to_length. }
  split; [apply finalTitle_spec|].
  split; [lia|].
  split; [lia|].
  reflexivity.
Qed.

Lemma title_sanitization_witness :
  100 < String.length (strip_non_alnum long_title)
  /\ String.length (finalTitle long_title) = 100.
Proof.
  assert (H : 100 < String.length (strip_non_alnum long_title)).
  { vm_compute. lia. }
  split; [exact H|].
  destruct (title_sanitization long_title) as (_ & _ & Hexact & _).
  apply Hexact. exact H.
Defined.

(** ** The resolvers *)

(** *** Running the monad *)

Ltac unfold_go :=
  cbv beta iota delta
    [StartRecordingSession StopRecordingSession JoinChannel Share CreateChannel
     Acquire Start Stop DB_Get DB_Insert DB_UpdateRecording Do post
     GenerateUUID GenerateDTMF GenerateUserCredentials GetUserFromContext
     bind ret fail panic logf tick record_call record_request
     get_channels put_channels invoke outcome serve].

Ltac project := cbn [channels clock log db_calls requests fst snd negb orb andb].

(** Case analysis on the innermost scrutinee first, so that the world
    threaded through the binds stays explicit. *)
Ltac go_cases :=
  repeat (project;
          match goal with
          | |- context [match ?x with _ => _ end] =>
            lazymatch x with
            | context [match _ with _ => _ end] => fail
            | _ => destruct x
            end
          end).

Lemma eqb_empty_false (p : string) : p <> "" -> String.eqb p "" = false.
Proof. intros H. apply String.eqb_neq. exact H. Qed.

(** C7.  JoinChannel, Share, StartRecording and StopRecording called with
    the empty passphrase return the error [Passphrase cannot be empty], and
    no statement is sent to the store (nor any request to the recording
    service; the table is as before). *)
Theorem empty_passphrase_rejected (env : Env) (ctx : Context) (op : Operation) (w : World) :
  fst (invoke env ctx op "" w) = Error (errorsNew "Passphrase cannot be empty")
  /\ db_calls (snd (invoke env ctx op "" w)) = db_calls w
  /\ channels (snd (invoke env ctx op "" w)) = channels w
  /\ requests (snd (invoke env ctx op "" w)) = requests w
  /\ clock (snd (invoke env ctx op "" w)) = clock w.
Proof.
  destruct op as [| | secret|]; unfold_go; try destruct secret; project; auto.
Qed.

Lemma eqb_false_of_neq (a b : string) : a <> b -> String.eqb a b = false.
Proof. apply String.eqb_neq. Qed.

Lemma eqb_true_of_eq (a b : string) : a = b -> String.eqb a b = true.
Proof. apply String.eqb_eq. Qed.

(** C2.  A caller whose passphrase resolves to the Viewer role gets the
    error [Unauthorised to record channel] from StartRecording and from
    StopRecording; no request has been sent to the recording service (no
    acquire, start or stop), no credentials were generated (the clock shows
    the lookup alone) and the table is unchanged. *)
Theorem viewer_cannot_record (env : Env) (ctx : Context) (w : World)
  (passphrase : string) (c : models.Channel) (secret : option string) :
  resolves env w StartRecordingSession_query passphrase c RoleViewer ->
  (fst (StartRecordingSession env ctx passphrase secret w)
     = Error (errorsNew "Unauthorised to record channel")
   /\ requests (snd (StartRecordingSession env ctx passphrase secret w)) = requests w
   /\ channels (snd (StartRecordingSession env ctx passphrase secret w)) = channels w
   /\ clock (snd (StartRecordingSession env ctx passphrase secret w)) = S (clock w))
  /\ (fst (StopRecordingSession env ctx passphrase w)
        = Error (errorsNew "Unauthorised to record channel")
      /\ requests (snd (StopRecordingSession env ctx passphrase w)) = requests w
      /\ channels (snd (StopRecordingSession env ctx passphrase w)) = channels w
      /\ clock (snd (StopRecordingSession env ctx passphrase w)) = S (clock w)).
Proof.
  intros (Hne & Hlook & Hnh & Hv).
  apply eqb_empty_false in Hne. apply eqb_false_of_neq in Hnh. apply eqb_true_of_eq in Hv.
  split.
  - unfold_go. destruct secret; project; rewrite Hne; project;
      rewrite Hlook, Hnh, Hv; project; auto.
  - unfold_go. change StopRecordingSession_query with StartRecordingSession_query.
    project. rewrite Hne. project. rewrite Hlook, Hnh, Hv. project. auto.
Qed.

Lemma viewer_cannot_record_witness :
  resolves demo_env recorded_world StartRecordingSession_query "view-phrase"
    (StructScan record_columns recorded_channel) RoleViewer
  /\ fst (StartRecordingSession demo_env no_ctx "view-phrase" None recorded_world)
     = Error (errorsNew "Unauthorised to record channel")
  /\ fst (StopRecordingSession demo_env no_ctx "view-phrase" recorded_world)
     = Error (errorsNew "Unauthorised to record channel").
Proof.
  assert (H : resolves demo_env recorded_world StartRecordingSession_query "view-phrase"
                (StructScan record_columns recorded_channel) RoleViewer).
  { split; [discriminate|]. split; [reflexivity|]. split; [discriminate | reflexivity]. }
  split; [exact H|].
  destruct (viewer_cannot_record demo_env no_ctx recorded_world "view-phrase" _ None H)
    as ((Hstart & _) & (Hstop & _)).
  split; assumption.
Defined.

(** C8, as the code has it.  When the lookup returns a row of which neither
    passphrase is the input, each of the four operations fails with the
    error [Invalid URL], leaves table and upstream alone and writes the
    debug line [Invalid Passphrase; Interal Server Error]; and [Invalid URL]
    is the very error that the operation returns, in any environment and
    state, when the lookup of a passphrase finds no row, the debug line then
    being [Invalid Passphrase].  The two cases differ in that line only. *)
Theorem inconsistent_lookup_same_error (env : Env) (ctx : Context) (op : Operation)
  (w : World) (passphrase : string) (c : models.Channel) :
  inconsistent_lookup env w (query_of op) passphrase c ->
  (fst (invoke env ctx op passphrase w) = Error (errorsNew "Invalid URL")
   /\ channels (snd (invoke env ctx op passphrase w)) = channels w
   /\ requests (snd (invoke env ctx op passphrase w)) = requests w
   /\ exists before,
        log (snd (invoke env ctx op passphrase w))
        = (before ++ [(DebugLevel, "Invalid Passphrase; Interal Server Error")])%list)
  /\ forall (env' : Env) (ctx' : Context) (w' : World) (passphrase' : string),
       passphrase' <> "" ->
       db_lookup env' (channels w') (clock w') (query_of op) passphrase' = None ->
       fst (invoke env' ctx' op passphrase' w') = Error (errorsNew "Invalid URL")
       /\ exists before,
            log (snd (invoke env' ctx' op passphrase' w'))
            = (before ++ [(DebugLevel, "Invalid Passphrase")])%list.
Proof.
  intros (Hne & Hlook & Hnh & Hnv). split.
  - apply eqb_empty_false in Hne. apply eqb_false_of_neq in Hnh, Hnv.
    destruct op as [| | secret|]; cbn [query_of] in Hlook; unfold_go;
      try destruct secret; project; rewrite Hne; project;
      rewrite Hlook, Hnh, Hnv; project;
      (split; [reflexivity|]; split; [reflexivity|]; split; [reflexivity|];
       eexists; reflexivity).
  - intros env' ctx' w' passphrase' Hne' Hnone.
    apply eqb_empty_false in Hne'.
    destruct op as [| | secret|]; cbn [query_of] in Hnone; unfold_go;
      try destruct secret; project; rewrite Hne'; project;
      rewrite Hnone; project;
      (split; [reflexivity|]; eexists; reflexivity).
Qed.

(** Two such lookups: JoinChannel with [HOST-PHRASE] on a store with a
    case-insensitive collation, and Share with [foo] on a table that holds
    the passphrase [$1], which its statement retrieves for every input. *)
Lemma inconsistent_lookup_same_error_witness :
  (inconsistent_lookup ci_env recorded_world (query_of OpJoinChannel) "HOST-PHRASE"
     (StructScan session_columns recorded_channel)
   /\ fst (invoke ci_env no_ctx OpJoinChannel "HOST-PHRASE" recorded_world)
      = Error (errorsNew "Invalid URL")
   /\ fst (invoke ci_env no_ctx OpJoinChannel "nobody" recorded_world)
      = Error (errorsNew "Invalid URL"))
  /\ (inconsistent_lookup lenient_env dollar_world (query_of OpShare) "foo"
        (StructScan session_columns dollar_channel)
      /\ fst (invoke lenient_env no_ctx OpShare "foo" dollar_world)
         = Error (errorsNew "Invalid URL")
      /\ fst (invoke lenient_env no_ctx OpShare "foo" recorded_world)
         = Error (errorsNew "Invalid URL")).
Proof.
  assert (Hjoin : inconsistent_lookup ci_env recorded_world (query_of OpJoinChannel)
                    "HOST-PHRASE" (StructScan session_columns recorded_channel)).
  { split; [discriminate|]. split; [reflexivity|]. split; discriminate. }
  assert (Hshare : inconsistent_lookup lenient_env dollar_world (query_of OpShare) "foo"
                     (StructScan session_columns dollar_channel)).
  { split; [discriminate|]. split; [reflexivity|]. split; discriminate. }
  split.
  - split; [exact Hjoin|].
    destruct (inconsistent_lookup_same_error ci_env no_ctx OpJoinChannel recorded_world
                "HOST-PHRASE" _ Hjoin) as ((H1 & _) & H2).
    split; [exact H1|].
    apply (H2 ci_env no_ctx recorded_world "nobody"); [discriminate | reflexivity].
  - split; [exact Hshare|].
    destruct (inconsistent_lookup_same_error lenient_env no_ctx OpShare dollar_world
                "foo" _ Hshare) as ((H1 & _) & H2).
    split; [exact H1|].
    apply (H2 lenient_env no_ctx recorded_world "foo"); [discriminate | reflexivity].
Defined.

(** C8, as it is stated, fails: in a store with a case-insensitive
    collation the passphrase [HOST-PHRASE] retrieves the row of
    [host-phrase], which matches neither field byte for byte, and
    [nobody] retrieves no row; JoinChannel returns one and the same error
    in both cases. *)
Lemma inconsistency_error_is_not_distinct :
  inconsistent_lookup ci_env recorded_world (query_of OpJoinChannel) "HOST-PHRASE"
    (StructScan session_columns recorded_channel)
  /\ db_lookup ci_env (channels recorded_world) (clock recorded_world)
       (query_of OpJoinChannel) "nobody" = None
  /\ fst (JoinChannel ci_env no_ctx "HOST-PHRASE" recorded_world)
     = fst (JoinChannel ci_env no_ctx "nobody" recorded_world).
Proof.
  split.
  { split; [discriminate|]. split; [reflexivity|]. split; discriminate. }
  split; reflexivity.
Qed.

(** *** StopRecordingSession and the recording columns *)

Lemma StructScan_record_columns_recording (row : models.Channel) :
  recording_full (StructScan record_columns row) = false
  /\ models.HostPassphrase (StructScan record_columns row) = models.HostPassphrase row
  /\ models.ViewerPassphrase (StructScan record_columns row) = models.ViewerPassphrase row.
Proof. repeat split. Qed.

(** StopRecordingSession never sends a request, whatever the table holds. *)
Lemma StopRecordingSession_sends_nothing (env : Env) (ctx : Context) (passphrase : string)
  (w : World) :
  requests (snd (StopRecordingSession env ctx passphrase w)) = requests w.
Proof.
  unfold_go. project.
  destruct (String.eqb passphrase ""); project; [reflexivity|].
  unfold db_lookup.
  destruct (db_err env (clock w)); project; [reflexivity|].
  destruct (strict_args env && _); project; [reflexivity|].
  destruct (find _ (channels w)) as [row|]; cbn [option_map]; project; [|reflexivity].
  cbn [StructScan models.HostPassphrase models.ViewerPassphrase selects existsb
       record_columns StopRecordingSession_query sel_columns col.index Nat.eqb orb].
  destruct (String.eqb passphrase (models.HostPassphrase row)); project; [reflexivity|].
  destruct (String.eqb passphrase (models.ViewerPassphrase row)); project; reflexivity.
Qed.

(** C1, evaluated on the code.  A Host-authorized StopRecording fails with
    [Recording not started] and sends nothing to the stop endpoint for
    every stored row: also for a row in which resource id, session id and
    numeric id are all present, because the statement of
    StopRecordingSession does not select the recording columns. *)
Theorem stop_ignores_stored_recording (env : Env) (ctx : Context) (w : World)
  (passphrase : string) (row : models.Channel) :
  stored_host env w passphrase row ->
  fst (StopRecordingSession env ctx passphrase w) = Error (errorsNew "Recording not started")
  /\ requests (snd (StopRecordingSession env ctx passphrase w)) = requests w.
Proof.
  intros (Hne & Hdb & Hfind & Hhost).
  split; [|apply StopRecordingSession_sends_nothing].
  apply eqb_empty_false in Hne. apply eqb_true_of_eq in Hhost.
  unfold_go. project. rewrite Hne. project.
  unfold db_lookup. rewrite Hdb, Hfind.
  replace (strict_args env && negb (Nat.eqb (placeholders StopRecordingSession_query) 1))
    with false by (cbn; now rewrite andb_false_r).
  cbn [option_map StructScan models.HostPassphrase models.ViewerPassphrase selects existsb
       record_columns StopRecordingSession_query sel_columns col.index Nat.eqb orb].
  project. rewrite Hhost. reflexivity.
Qed.

Lemma stop_ignores_stored_recording_witness :
  stored_host demo_env recorded_world "host-phrase" recorded_channel
  /\ recording_full recorded_channel = true
  /\ fst (StopRecordingSession demo_env no_ctx "host-phrase" recorded_world)
     = Error (errorsNew "Recording not started")
  /\ requests (snd (StopRecordingSession demo_env no_ctx "host-phrase" recorded_world)) = [].
Proof.
  assert (H : stored_host demo_env recorded_world "host-phrase" recorded_channel).
  { split; [discriminate|]. repeat split. }
  split; [exact H|]. split; [reflexivity|].
  exact (stop_ignores_stored_recording demo_env no_ctx recorded_world "host-phrase"
           recorded_channel H).
Defined.

(** *** Start, then stop *)

(** C3, evaluated on the code.  A channel is created, the host starts a
    recording against an upstream that answers resource id [R1] and session
    id [S1], then stops it.  The start succeeds and writes [R1], [S1] and the
    numeric id 7 together onto the channel record.  The stop then fails with
    [Recording not started] and sends no request: the stored triple never
    reaches the stop endpoint. *)
Theorem start_then_stop_end_to_end :
  let w1 := snd (CreateChannel demo_env no_ctx "Weekly sync" (Some false) empty_world) in
  let started := StartRecordingSession demo_env no_ctx "u" None w1 in
  let stopped := StopRecordingSession demo_env no_ctx "u" (snd started) in
  fst started = Return "success"
  /\ map (fun c => (models.HostPassphrase c, models.RecordingRID c,
                    models.RecordingSID c, models.RecordingUID c))
         (channels (snd started))
     = [("u",
         {| sql.NullString_String := "R1"; sql.NullString_Valid := true |},
         {| sql.NullString_String := "S1"; sql.NullString_Valid := true |},
         {| sql.NullInt32_Int32 := 7; sql.NullInt32_Valid := true |})]
  /\ length (requests (snd started)) = 2
  /\ fst stopped = Error (errorsNew "Recording not started")
  /\ requests (snd stopped) = requests (snd started).
Proof. vm_compute. repeat split. Qed.

(** A successful StartRecordingSession writes the three recording columns
    together, all of them non-NULL, onto the rows of the channel's [id]. *)
Lemma StartRecordingSession_writes_triple (env : Env) (ctx : Context) (passphrase : string)
  (secret : option string) (w : World) (status : string) :
  fst (StartRecordingSession env ctx passphrase secret w) = Return status ->
  exists rd,
    channels (snd (StartRecordingSession env ctx passphrase secret w))
    = map (set_recording rd) (channels w)
    /\ recording_full rd = true.
Proof.
  unfold_go. go_cases; project; intros H; try discriminate H;
    eexists; (split; [reflexivity|]); reflexivity.
Qed.

(** A StartRecordingSession that does not succeed leaves the table as it was. *)
Lemma StartRecordingSession_failure_persists_nothing (env : Env) (ctx : Context)
  (passphrase : string) (secret : option string) (w : World) :
  (forall status, fst (StartRecordingSession env ctx passphrase secret w) <> Return status) ->
  channels (snd (StartRecordingSession env ctx passphrase secret w)) = channels w.
Proof.
  unfold_go. go_cases; project; intros H; try reflexivity.
  all: exfalso; eapply H; reflexivity.
Qed.

(** *** Acquire *)

Lemma Acquire_error_iff (env : Env) (rec : utils.Recorder) (w : World) (e : error) :
  (exists rec', fst (Acquire env rec w) = Return (Some e, rec'))
  <-> acquire_fault env (clock w) (utils.Channel rec) e.
Proof.
  unfold acquire_fault, acquire_request, acquire_url.
  unfold_go. project.
  destruct (creds_at env (clock w) (utils.Channel rec) false) as [e0 | creds] eqn:Hc.
  { project. split.
    - intros [rec' H]. left. congruence.
    - intros [H | (creds & H & _)]; [|discriminate]. eexists. repeat f_equal. congruence. }
  cbn [utils.Channel utils.UID].
  destruct (NewRequest_err env _) as [e1|] eqn:Hu.
  { project. split.
    - intros [rec' H]. right. exists creds. split; [reflexivity|]. left. congruence.
    - intros [H | (creds' & _ & [H | [H _]])]; try discriminate.
      eexists. repeat f_equal. congruence. }
  project.
  match goal with |- context [http_Do env ?t ?r] => destruct (http_Do env t r) as [e2 | resp] eqn:Hd end.
  { project. split.
    - intros [rec' H]. right. exists creds. split; [reflexivity|]. right.
      split; [reflexivity|]. unfold post in *. congruence.
    - intros [H | (creds' & Hc' & [H | [_ H]])]; try discriminate.
      injection Hc' as <-. unfold post in *. rewrite Hd in H.
      eexists. repeat f_equal. congruence. }
  project. split.
  - intros [rec' H]. discriminate.
  - intros [H | (creds' & Hc' & [H | [_ H]])]; try discriminate.
    injection Hc' as <-. unfold post in *. congruence.
Qed.

(** Whatever the response (any status, any body), [Acquire] returns no
    error and takes the resource id from it, empty when it is missing. *)
Lemma Acquire_accepts_any_response (env : Env) (rec : utils.Recorder) (w : World)
  (creds : model.UserCredentials) (resp : Response) :
  creds_at env (clock w) (utils.Channel rec) false = inr creds ->
  NewRequest_err env (acquire_url env) = None ->
  http_Do env (S (clock w)) (acquire_request env (utils.Channel rec) creds) = inr resp ->
  exists rec',
    fst (Acquire env rec w) = Return (None, rec')
    /\ utils.RID rec' = map_index (Decoded resp) "resourceId".
Proof.
  unfold acquire_request, acquire_url. intros Hc Hu Hd.
  unfold_go. project. rewrite Hc. cbn [utils.Channel utils.UID]. rewrite Hu. project.
  unfold post in *. rewrite Hd. project. eexists. split; reflexivity.
Qed.

(** C4, as it is stated, fails: the recording service answers the acquire
    request with status 401 and a body without resource id, and [Acquire]
    returns no error; StartRecordingSession goes on, succeeds, and persists
    a recording triple whose resource id is the empty string. *)
Lemma acquire_accepts_refusal :
  StatusCode upstream_refusal = 401%Z
  /\ Decoded upstream_refusal !! "resourceId" = None
  /\ (exists rec',
        fst (Acquire refused_env idle_recorder idle_world) = Return (None, rec')
        /\ utils.RID rec' = "")
  /\ fst (StartRecordingSession refused_env no_ctx "host-phrase" None idle_world)
     = Return "success"
  /\ map models.RecordingRID
         (channels (snd (StartRecordingSession refused_env no_ctx "host-phrase" None
                           idle_world)))
     = [{| sql.NullString_String := ""; sql.NullString_Valid := true |}].
Proof.
  split; [reflexivity|]. split; [reflexivity|].
  split; [eexists; split; vm_compute; reflexivity|].
  split; vm_compute; reflexivity.
Qed.

(** C4, as the code has it.  When the credentials cannot be generated, the
    acquire request cannot be built, or its round trip fails, [Acquire]
    returns that error; the Host's StartRecordingSession then returns the
    internal server error, sends no statement but its lookup to the store,
    and leaves the channel records as they were. *)
Theorem acquire_failure_persists_nothing (env : Env) (ctx : Context) (w : World)
  (passphrase : string) (c : models.Channel) (secret : option string) (e : error) :
  resolves env w StartRecordingSession_query passphrase c RoleHost ->
  acquire_fault env (S (clock w)) (models.ChannelName c) e ->
  (forall rec w0,
     utils.Channel rec = models.ChannelName c -> clock w0 = S (clock w) ->
     exists rec', fst (Acquire env rec w0) = Return (Some e, rec'))
  /\ fst (StartRecordingSession env ctx passphrase secret w) = Error errInternalServer
  /\ channels (snd (StartRecordingSession env ctx passphrase secret w)) = channels w
  /\ db_calls (snd (StartRecordingSession env ctx passphrase secret w))
     = (db_calls w ++ [CallGet StartRecordingSession_query passphrase])%list.
Proof.
  intros (Hne & Hlook & Hhost) Hfault.
  split.
  { intros rec w0 Hrec Hclock. apply Acquire_error_iff. rewrite Hrec, Hclock. exact Hfault. }
  apply eqb_empty_false in Hne. apply eqb_true_of_eq in Hhost.
  unfold acquire_fault, acquire_request, acquire_url in Hfault.
  unfold_go. destruct secret; project; rewrite Hne; project; rewrite Hlook, Hhost; project;
    cbn [utils.Channel utils.UID];
    (destruct Hfault as [Hc | (creds & Hc & [Hu | [Hu Hd]])];
     rewrite Hc; project; cbn [utils.Channel utils.UID];
     [ auto
     | rewrite Hu; project; auto
     | rewrite Hu; project; unfold post in Hd; rewrite Hd; project; auto ]).
Qed.

Lemma acquire_failure_persists_nothing_witness :
  resolves unreachable_env idle_world StartRecordingSession_query "host-phrase"
    (StructScan record_columns idle_channel) RoleHost
  /\ acquire_fault unreachable_env 1 "room" (errorsNew "dial tcp: connection refused")
  /\ fst (StartRecordingSession unreachable_env no_ctx "host-phrase" None idle_world)
     = Error errInternalServer
  /\ channels (snd (StartRecordingSession unreachable_env no_ctx "host-phrase" None
                      idle_world))
     = [idle_channel].
Proof.
  assert (H : resolves unreachable_env idle_world StartRecordingSession_query "host-phrase"
                (StructScan record_columns idle_channel) RoleHost).
  { split; [discriminate|]. split; reflexivity. }
  assert (F : acquire_fault unreachable_env 1 "room"
                (errorsNew "dial tcp: connection refused")).
  { right. eexists. split; [reflexivity|]. right. split; reflexivity. }
  split; [exact H|]. split; [exact F|].
  destruct (acquire_failure_persists_nothing unreachable_env no_ctx idle_world
              "host-phrase" _ None _ H F) as (_ & Hr & Hc & _).
  split; assumption.
Defined.

(** *** CreateChannel *)

(** C9, evaluated on the code.  Called without [enablePstn] (a nil
    pointer), with the caller admitted and all five generators succeeding,
    CreateChannel does not return: it dereferences the nil pointer (line 73)
    and panics, having inserted nothing. *)
Theorem CreateChannel_nil_enablePstn_panics (env : Env) (ctx : Context) (title : string)
  (w : World) (h v n s d : string) :
  (ENABLE_OAUTH env = true -> ctx_user ctx <> None) ->
  uuid_at env (clock w) = inr h ->
  uuid_at env (1 + clock w) = inr v ->
  uuid_at env (2 + clock w) = inr n ->
  uuid_at env (3 + clock w) = inr s ->
  dtmf_at env (4 + clock w) = inr d ->
  fst (CreateChannel env ctx title None w)
    = Panic "invalid memory address or nil pointer dereference"
  /\ channels (snd (CreateChannel env ctx title None w)) = channels w
  /\ db_calls (snd (CreateChannel env ctx title None w)) = db_calls w.
Proof.
  intros Hauth Hh Hv Hn Hs Hd. cbn [Nat.add] in *.
  unfold_go. project.
  destruct (ENABLE_OAUTH env) eqn:Ho.
  - destruct (ctx_user ctx) eqn:Hu; [|exfalso; now apply Hauth].
    project. rewrite Hh. project. rewrite Hv. project. rewrite Hn. project.
    rewrite Hs. project. rewrite Hd. project. auto.
  - project. rewrite Hh. project. rewrite Hv. project. rewrite Hn. project.
    rewrite Hs. project. rewrite Hd. project. auto.
Qed.

Lemma CreateChannel_nil_enablePstn_panics_witness :
  fst (CreateChannel demo_env no_ctx "Weekly sync" None empty_world)
    = Panic "invalid memory address or nil pointer dereference".
Proof.
  apply (CreateChannel_nil_enablePstn_panics demo_env no_ctx "Weekly sync" empty_world
           (ident 0) (ident 1) (ident 2) (ident 3) "4711");
    try reflexivity.
  intros H. discriminate H.
Defined.

(** With [enablePstn] present CreateChannel returns a response or an error. *)
Lemma CreateChannel_present_enablePstn_returns (env : Env) (ctx : Context) (title : string)
  (b : bool) (w : World) :
  (exists r, fst (CreateChannel env ctx title (Some b) w) = Return r)
  \/ (exists e, fst (CreateChannel env ctx title (Some b) w) = Error e).
Proof.
  unfold_go. project.
  destruct (ENABLE_OAUTH env); [destruct (ctx_user ctx)|]; project; eauto;
    (destruct (uuid_at env _); project; eauto;
     destruct (uuid_at env _); project; eauto;
     destruct (uuid_at env _); project; eauto;
     destruct (uuid_at env _); project; eauto;
     destruct (dtmf_at env _); project; eauto;
     destruct b; project;
     destruct (db_err env _); project; eauto).
Qed.

(** *** Share *)

(** C10, evaluated on the code.  Share never returns a PSTN object: its
    statement does not select the [dtmf] column, so the DTMF code it tests
    is the empty string whatever the table holds. *)
Theorem Share_never_returns_pstn (env : Env) (ctx : Context) (passphrase : string)
  (w : World) (r : model.ShareResponse) :
  fst (Share env ctx passphrase w) = Return r ->
  model.ShareResponse_Pstn r = None.
Proof.
  unfold_go. project.
  destruct (String.eqb passphrase ""); project; [discriminate|].
  unfold db_lookup.
  destruct (db_err env (clock w)); project; [discriminate|].
  destruct (strict_args env && _); project; [discriminate|].
  destruct (find _ (channels w)) as [row|]; cbn [option_map]; project; [|discriminate].
  cbn [StructScan models.HostPassphrase models.ViewerPassphrase models.DTMF selects existsb
       session_columns Share_query sel_columns col.index Nat.eqb orb].
  destruct (String.eqb passphrase (models.HostPassphrase row)); project.
  { intros H. injection H as <-. reflexivity. }
  destruct (String.eqb passphrase (models.ViewerPassphrase row)); project;
    [|discriminate].
  intros H. injection H as <-. reflexivity.
Qed.

Lemma Share_never_returns_pstn_witness :
  models.DTMF dollar_channel = "4711"
  /\ exists r,
       fst (Share lenient_env no_ctx "$1" dollar_world) = Return r
       /\ model.ShareResponse_Pstn r = None.
Proof.
  split; [reflexivity|].
  eexists. split; [reflexivity|].
  apply (Share_never_returns_pstn lenient_env no_ctx "$1" dollar_world). reflexivity.
Defined.

(** A channel created with [enablePstn = true] stores its DTMF code, and
    Share with its host passphrase fails with [Invalid URL], whether or not
    the store checks the bound arguments: the statement compares the
    passphrase columns with the literal [$1]. *)
Lemma create_then_share :
  let created := CreateChannel demo_env no_ctx "Weekly sync" (Some true) empty_world in
  fst created
  = Return {| model.ShareResponse_Passphrase :=
                {| model.Host := Some "u"; model.View := "xu" |};
              model.ShareResponse_Channel := "xxu";
              model.ShareResponse_Title := "Weekly sync";
              model.ShareResponse_Pstn :=
                Some {| model.Number := "+18005550100"; model.Dtmf := "4711" |} |}
  /\ map models.DTMF (channels (snd created)) = ["4711"]
  /\ fst (Share demo_env no_ctx "u" (snd created)) = Error (errorsNew "Invalid URL")
  /\ fst (Share lenient_env no_ctx "u" (snd created)) = Error (errorsNew "Invalid URL").
Proof. vm_compute. repeat split. Qed.

(** *** Passphrases never collide *)



Ltac same_table := solve [left; split; [reflexivity | lia]].

Ltac one_more_row :=
  right; eexists; split; [reflexivity|];
  cbn [inserted_row models.HostPassphrase models.ViewerPassphrase];
  split; [reflexivity|]; split; [reflexivity|]; split; [reflexivity | lia].

(** What a call of CreateChannel does to the table and the clock: nothing
    to the table, or one more row whose passphrases are the two identifiers
    drawn first. *)
Lemma CreateChannel_effect (env : Env) (ctx : Context) (title : string)
  (enablePstn : option bool) (w : World) :
  let w' := snd (CreateChannel env ctx title enablePstn w) in
  (channels w' = channels w /\ clock w <= clock w')
  \/ (exists row,
        channels w' = (channels w ++ [row])%list
        /\ uuid_at env (clock w) = inr (models.HostPassphrase row)
        /\ uuid_at env (S (clock w)) = inr (models.ViewerPassphrase row)
        /\ recording_absent row = true
        /\ S (S (clock w)) <= clock w').
Proof.
  unfold_go. project.
  destruct enablePstn as [[|]|];
    (destruct (ENABLE_OAUTH env); [destruct (ctx_user ctx)|]; project;
     try same_table;
     destruct (uuid_at env (clock w)) eqn:Hh; project; try same_table;
     destruct (uuid_at env (S (clock w))) eqn:Hv; project; try same_table;
     destruct (uuid_at env (S (S (clock w)))); project; try same_table;
     destruct (uuid_at env (S (S (S (clock w))))); project; try same_table;
     destruct (dtmf_at env (S (S (S (S (clock w)))))); project; try same_table;
     destruct (db_err env (S (S (S (S (S (clock w))))))); project; try same_table;
     one_more_row).
Qed.









Lemma ident_length (n : nat) : String.length (ident n) = S n.
Proof. induction n as [|n IH]; [reflexivity|]. cbn. now rewrite IH. Qed.

Lemma demo_env_fresh : uuid_fresh demo_env.
Proof.
  intros i j a Hi Hj. cbn in Hi, Hj.
  assert (H : ident i = ident j) by congruence.
  apply (f_equal String.length) in H. rewrite !ident_length in H. lia.
Qed.

Lemma empty_world_issued (env : Env) : issued env empty_world.
Proof.
  exists []. cbn. split; [constructor|]. split; [apply NoDup_nil_2 | constructor].
Qed.




(** *** The recording triple is written whole *)

Lemma invoke_channels (env : Env) (ctx : Context) (op : Operation) (passphrase : string)
  (w : World) :
  channels (snd (invoke env ctx op passphrase w)) = channels w
  \/ exists rd,
       recording_full rd = true
       /\ channels (snd (invoke env ctx op passphrase w)) = map (set_recording rd) (channels w).
Proof.
  destruct op as [| | secret|]; unfold_go; go_cases; project;
    first [left; reflexivity | right; eexists; split; [|reflexivity]; reflexivity].
Qed.

Lemma set_recording_all_or_nothing (rd row : models.Channel) :
  recording_full rd = true ->
  recording_all_or_nothing row -> recording_all_or_nothing (set_recording rd row).
Proof.
  intros Hfull Hrow. unfold set_recording.
  destruct (Z.eqb _ _); [|exact Hrow].
  left. exact Hfull.
Qed.

Lemma Forall_set_recording (rd : models.Channel) (rows : list models.Channel) :
  recording_full rd = true ->
  Forall recording_all_or_nothing rows ->
  Forall recording_all_or_nothing (map (set_recording rd) rows).
Proof.
  intros Hfull H. induction H as [|row rows Hrow Hrows IH]; cbn [map].
  - constructor.
  - constructor; [apply set_recording_all_or_nothing; assumption | exact IH].
Qed.

(** The specification's invariant on the recording state: through every
    request, each channel has its resource id, session id and numeric id
    all present or all absent. *)
Lemma serve_recording_all_or_nothing (env : Env) (c : Call) (w : World) :
  Forall recording_all_or_nothing (channels w) ->
  Forall recording_all_or_nothing (channels (serve env c w)).
Proof.
  intros H. destruct c as [ctx title enablePstn | ctx op passphrase]; cbn [serve].
  - destruct (CreateChannel_effect env ctx title enablePstn w)
      as [[-> _] | (row & -> & _ & _ & Habsent & _)]; [exact H|].
    apply Forall_app. split; [exact H|].
    constructor; [right; exact Habsent | constructor].
  - destruct (invoke_channels env ctx op passphrase w) as [-> | (rd & Hfull & ->)];
      [exact H|].
    apply Forall_set_recording; assumption.
Qed.

Lemma serve_all_recording_all_or_nothing (env : Env) (cs : list Call) (w : World) :
  Forall recording_all_or_nothing (channels w) ->
  Forall recording_all_or_nothing (channels (serve_all env cs w)).
Proof.
  revert w. induction cs as [|c cs IH]; intros w H; [exact H|].
  cbn [serve_all fold_left]. apply IH. apply serve_recording_all_or_nothing. exact H.
Qed.

(** * Further properties *)

(** ** FirstN on arbitrary strings *)

Lemma slice_to_slice (m n : nat) (s : string) :
  m <= n -> slice_to m (slice_to n s) = slice_to m s.
Proof.
  revert m n. induction s as [|c s IH]; intros [|m] [|n] H; simpl; try reflexivity; try lia.
  rewrite IH by lia. reflexivity.
Qed.

Lemma take_runes_slice (s : string) :
  forall skip k, take_runes s skip k = slice_to (String.length (take_runes s skip k)) s.
Proof.
  induction s as [|c s IH]; intros skip k; [reflexivity|].
  destruct skip as [|sk]; [destruct k as [|k']|]; cbn [take_runes String.length slice_to];
    try reflexivity; f_equal; apply IH.
Qed.

Lemma take_runes_length_skip (s : string) :
  forall skip k, Nat.min skip (String.length s) <= String.length (take_runes s skip k).
Proof.
  induction s as [|c s IH]; intros skip k; [simpl; lia|].
  destruct skip as [|sk]; [simpl; lia|].
  cbn [take_runes String.length]. specialize (IH sk k). lia.
Qed.

(** The width of a rune never exceeds the bytes at hand. *)
Lemma DecodeRune_width_le (s : string) :
  snd (DecodeRuneInString s) <= String.length s.
Proof.
  unfold DecodeRuneInString.
  destruct s as [|c0 [|c1 [|c2 [|c3 s]]]]; cbv zeta; cbn [String.length snd];
    repeat match goal with
           | |- context [if ?b then _ else _] => destruct b
           end; cbn [snd]; lia.
Qed.

Lemma DecodeRune_width_pos (c : ascii) (s : string) :
  1 <= snd (DecodeRuneInString (String c s)).
Proof.
  unfold DecodeRuneInString.
  destruct s as [|c1 [|c2 [|c3 s]]]; cbv zeta;
    repeat match goal with
           | |- context [if ?b then _ else _] => destruct b
           end; cbn [snd]; lia.
Qed.

(** Decoding looks at the bytes of the rune only: a prefix of the string
    that holds them decodes alike. *)
Lemma DecodeRune_slice (c : ascii) (s : string) (m : nat) :
  snd (DecodeRuneInString (String c s)) - 1 <= m ->
  DecodeRuneInString (String c (slice_to m s)) = DecodeRuneInString (String c s).
Proof.
  unfold DecodeRuneInString. cbv zeta.
  destruct (N.ltb (byte_val c) 128); [reflexivity|].
  destruct s as [|c1 [|c2 [|c3 s]]]; destruct m as [|[|[|m]]]; cbn [slice_to];
    try reflexivity;
    repeat match goal with
           | |- context [if ?b then _ else _] => destruct b eqn:?
           end; cbn [snd]; intros Hm; try reflexivity; try lia.
Qed.

Lemma RuneCount_take_runes (s : string) :
  forall skip k,
    RuneCount_loop (take_runes s skip k) skip = Nat.min k (RuneCount_loop s skip).
Proof.
  induction s as [|c s IH]; intros skip k; [simpl; lia|].
  destruct skip as [|sk].
  - destruct k as [|k']; [reflexivity|].
    cbn [take_runes].
    set (w := snd (DecodeRuneInString (String c s))).
    cbn [RuneCount_loop].
    rewrite (take_runes_slice s (w - 1) k').
    rewrite DecodeRune_slice; fold w.
    + rewrite <- take_runes_slice. rewrite IH. lia.
    + pose proof (take_runes_length_skip s (w - 1) k') as Hlen.
      pose proof (DecodeRune_width_le (String c s)) as Hw. fold w in Hw.
      cbn [String.length] in Hw. lia.
  - cbn [take_runes RuneCount_loop]. apply IH.
Qed.

Lemma take_runes_all (s : string) :
  forall skip k, RuneCount_loop s skip <= k -> take_runes s skip k = s.
Proof.
  induction s as [|c s IH]; intros skip k H; [reflexivity|].
  destruct skip as [|sk]; cbn [take_runes RuneCount_loop] in *.
  - destruct k as [|k']; [lia|]. f_equal. apply IH. lia.
  - f_equal. apply IH. exact H.
Qed.

(** The loop of [FirstN] stops at the end of the first [n - i] runes. *)
Lemma FirstN_range_take (s : string) :
  forall skip i j n, i <= n ->
  match FirstN_range s skip i j n with
  | Some j' => j' = j + String.length (take_runes s skip (n - i))
  | None => take_runes s skip (n - i) = s
  end.
Proof.
  induction s as [|c s IH]; intros skip i j n Hin; [reflexivity|].
  destruct skip as [|sk]; cbn [FirstN_range].
  - destruct (Nat.eqb_spec i n) as [-> | Hne].
    + rewrite Nat.sub_diag. simpl. lia.
    + replace (n - i) with (S (n - S i)) by lia. cbn [take_runes].
      specialize (IH (snd (DecodeRuneInString (String c s)) - 1) (S i) (S j) n).
      destruct (FirstN_range s _ (S i) (S j) n).
      * rewrite IH by lia. cbn [String.length]. lia.
      * rewrite IH by lia. reflexivity.
  - cbn [take_runes]. specialize (IH sk i (S j) n Hin).
    destruct (FirstN_range s sk i (S j) n).
    + rewrite IH. cbn [String.length]. lia.
    + rewrite IH. reflexivity.
Qed.

Lemma FirstN_take_runes (s : string) (n : nat) : FirstN s n = take_runes s 0 n.
Proof.
  unfold FirstN. pose proof (FirstN_range_take s 0 0 0 n (Nat.le_0_l n)) as H.
  rewrite Nat.sub_0_r in H.
  destruct (FirstN_range s 0 0 0 n) as [j|].
  - subst j. cbn [Nat.add]. symmetry. apply take_runes_slice.
  - symmetry. exact H.
Qed.

Lemma slice_to_is_prefix (m : nat) (s : string) : String.prefix (slice_to m s) s = true.
Proof.
  revert m. induction s as [|c s IH]; intros [|m]; simpl; try reflexivity.
  destruct (ascii_dec c c) as [_ | Hne]; [apply IH | now elim Hne].
Qed.

Lemma FirstN_range_int_nat (s : string) :
  forall skip i j n,
    FirstN_range_int s skip (Z.of_nat i) j (Z.of_nat n) = FirstN_range s skip i j n.
Proof.
  induction s as [|c s IH]; intros skip i j n; [reflexivity|].
  destruct skip as [|sk]; cbn [FirstN_range_int FirstN_range]; [|apply IH].
  destruct (Nat.eqb_spec i n) as [-> | Hne].
  - rewrite Z.eqb_refl. reflexivity.
  - destruct (Z.eqb_spec (Z.of_nat i) (Z.of_nat n)) as [Heq | _]; [lia|].
    replace (Z.of_nat i + 1)%Z with (Z.of_nat (S i)) by lia. apply IH.
Qed.

(** With a negative bound the loop of [FirstN] runs to the end. *)
Lemma FirstN_range_int_negative (s : string) :
  forall skip i j n, (n < 0)%Z -> (0 <= i)%Z -> FirstN_range_int s skip i j n = None.
Proof.
  induction s as [|c s IH]; intros skip i j n Hn Hi; [reflexivity|].
  destruct skip as [|sk]; cbn [FirstN_range_int]; [|apply IH; assumption].
  destruct (Z.eqb_spec i n) as [Heq | _]; [lia|]. apply IH; lia.
Qed.

Lemma FirstN_int_nat (s : string) (k : nat) : FirstN_int s (Z.of_nat k) = FirstN s k.
Proof.
  unfold FirstN_int, FirstN. change 0%Z with (Z.of_nat 0).
  rewrite FirstN_range_int_nat. reflexivity.
Qed.

Lemma FirstN_int_cases (s : string) (n : Z) :
  FirstN_int s n = if (n <? 0)%Z then s else FirstN s (Z.to_nat n).
Proof.
  destruct (Z.ltb_spec n 0) as [Hneg | Hpos].
  - unfold FirstN_int. rewrite FirstN_range_int_negative by lia. reflexivity.
  - rewrite <- (Z2Nat.id n) at 1 by exact Hpos. apply FirstN_int_nat.
Qed.

Lemma append_cons (c : ascii) (a b : string) : String c a +:+ b = String c (a +:+ b).
Proof. reflexivity. Qed.

Lemma append_empty_r (s : string) : s = s +:+ "".
Proof. induction s as [|c s IH]; [reflexivity|]. rewrite append_cons, <- IH. reflexivity. Qed.

Lemma prefix_refl (s : string) : String.prefix s s = true.
Proof.
  induction s as [|c s IH]; [reflexivity|]. cbn [String.prefix].
  destruct (ascii_dec c c) as [_ | Hne]; [exact IH | now elim Hne].
Qed.

Lemma take_drop_runes (s : string) :
  forall skip k, s = take_runes s skip k +:+ drop_runes s skip k.
Proof.
  induction s as [|c s IH]; intros skip k; [reflexivity|].
  destruct skip as [|sk]; [destruct k as [|k']|]; cbn [take_runes drop_runes];
    rewrite ?append_cons; try reflexivity; f_equal; apply IH.
Qed.

(** Cutting behind a whole number of runes loses no rune and makes none:
    the runes of the two parts add up to those of the string. *)
Lemma RuneCount_take_drop (s : string) :
  forall skip k,
    RuneCount_loop s skip
    = RuneCount_loop (take_runes s skip k) skip + RuneCount_loop (drop_runes s skip k) 0.
Proof.
  induction s as [|c s IH]; intros skip k; [reflexivity|].
  destruct skip as [|sk].
  - destruct k as [|k']; [reflexivity|].
    cbn [take_runes drop_runes].
    set (w := snd (DecodeRuneInString (String c s))).
    cbn [RuneCount_loop]. fold w.
    rewrite (take_runes_slice s (w - 1) k').
    rewrite DecodeRune_slice; fold w.
    + rewrite <- take_runes_slice. rewrite (IH (w - 1) k'). reflexivity.
    + pose proof (take_runes_length_skip s (w - 1) k') as Hlen.
      pose proof (DecodeRune_width_le (String c s)) as Hw. fold w in Hw.
      cbn [String.length] in Hw. lia.
  - cbn [take_runes drop_runes RuneCount_loop]. apply IH.
Qed.

(** The two bytes of [\u00e9] and an [a]: cut behind one rune, [FirstN]
    keeps both bytes of the first; with a negative bound it keeps all. *)
Example FirstN_int_between_runes :
  let e_a := String (byte_of_Z 195) (String (byte_of_Z 169) "a") in
  FirstN_int e_a 1 = String (byte_of_Z 195) (String (byte_of_Z 169) "")
  /\ FirstN_int e_a (-1) = e_a
  /\ FirstN_int e_a 0 = "".
Proof. cbv zeta. repeat split; vm_compute; reflexivity. Qed.

(** X1.  For every string, valid UTF-8 or not, and every bound [n], negative
    ones included, [FirstN(s, n)] is [s] itself when [n] is negative and the
    bytes of the first [n] runes of [s] otherwise, which is all of [s] when
    it has no more.  It is [s] cut between two runes: [s] is the result
    followed by a rest, and the runes of result and rest add up to the runes
    of [s]; the result has [min n (runes of s)] runes for [n >= 0]. *)
Theorem FirstN_first_runes (s : string) (n : Z) :
  FirstN_int s n = (if (n <? 0)%Z then s else FirstN s (Z.to_nat n))
  /\ FirstN_int s n = (if (n <? 0)%Z then s else take_runes s 0 (Z.to_nat n))
  /\ (exists rest,
        s = FirstN_int s n +:+ rest
        /\ RuneCountInString s = RuneCountInString (FirstN_int s n) + RuneCountInString rest)
  /\ RuneCountInString (FirstN_int s n)
     = (if (n <? 0)%Z then RuneCountInString s
        else Nat.min (Z.to_nat n) (RuneCountInString s))
  /\ String.prefix (FirstN_int s n) s = true.
Proof.
  rewrite FirstN_int_cases.
  destruct (n <? 0)%Z.
  - split; [reflexivity|]. split; [reflexivity|]. split; [|split].
    + exists "". split; [apply append_empty_r|].
      unfold RuneCountInString. cbn [RuneCount_loop]. lia.
    + reflexivity.
    + apply prefix_refl.
  - rewrite FirstN_take_runes.
    split; [reflexivity|]. split; [reflexivity|]. split; [|split].
    + exists (drop_runes s 0 (Z.to_nat n)). split; [apply take_drop_runes|].
      apply RuneCount_take_drop.
    + apply RuneCount_take_runes.
    + rewrite take_runes_slice. apply slice_to_is_prefix.
Qed.

(** X2.  A string of at most [n] runes is returned whole, whatever its
    length in bytes; in particular the result of [FirstN] is left as it is
    by a second [FirstN] with the same bound. *)
Theorem FirstN_short_string (s : string) (n : nat) :
  (RuneCountInString s <= n -> FirstN s n = s)
  /\ FirstN (FirstN s n) n = FirstN s n.
Proof.
  split.
  - intros H. rewrite FirstN_take_runes. apply take_runes_all. exact H.
  - rewrite (FirstN_take_runes (FirstN s n)). apply take_runes_all.
    change (RuneCountInString (FirstN s n) <= n).
    rewrite FirstN_take_runes. unfold RuneCountInString.
    rewrite RuneCount_take_runes. lia.
Qed.

Lemma FirstN_short_string_witness :
  String.length cafe = 5
  /\ RuneCountInString cafe <= 4
  /\ FirstN cafe 4 = cafe.
Proof.
  assert (H : RuneCountInString cafe <= 4) by (vm_compute; lia).
  split; [reflexivity|]. split; [exact H|].
  destruct (FirstN_short_string cafe 4) as [Hwhole _]. apply Hwhole. exact H.
Defined.

(** ** The recording client *)

Lemma int32_high (x : Z) :
  (2 ^ 31 <= x < 2 ^ 32)%Z -> int32 x = (x - 2 ^ 32)%Z.
Proof.
  intros H. unfold int32.
  replace (x + 2 ^ 31)%Z with ((x - 2 ^ 31) + 1 * 2 ^ 32)%Z by lia.
  rewrite Z.mod_add by lia. rewrite Z.mod_small by lia. lia.
Qed.

Lemma int32_range (x : Z) : (- 2 ^ 31 <= int32 x < 2 ^ 31)%Z.
Proof.
  unfold int32. pose proof (Z.mod_pos_bound (x + 2 ^ 31) (2 ^ 32) ltac:(lia)). lia.
Qed.

Lemma string_of_rune_negative (r : Z) : (r < 0)%Z -> string_of_rune r = replacement_char.
Proof.
  intros H. unfold string_of_rune. cbv zeta.
  replace (r <? 0)%Z with true by (symmetry; apply Z.ltb_lt; exact H).
  reflexivity.
Qed.

(** X3.  [Acquire] sends the numeric id as [string(rec.UID)], the UTF-8
    encoding of the code point of that number and not its decimal text.
    Every numeric id from 2^31 up to 2^32, which [int32] turns negative, is
    therefore sent as the same three bytes, the encoding of U+FFFD. *)
Theorem Acquire_uid_is_a_code_point (env : Env) (rec : utils.Recorder) (w : World)
  (creds : model.UserCredentials) :
  creds_at env (clock w) (utils.Channel rec) false = inr creds ->
  NewRequest_err env (acquire_url env) = None ->
  exists req b,
    requests (snd (Acquire env rec w)) = (requests w ++ [req])%list
    /\ Body req = AcquireBody b
    /\ utils.AcquireRequest_UID b = string_of_rune (int32 (model.UID creds))
    /\ ((2 ^ 31 <= model.UID creds < 2 ^ 32)%Z ->
        utils.AcquireRequest_UID b = replacement_char).
Proof.
  intros Hc Hu. unfold acquire_url in Hu.
  unfold_go. project. rewrite Hc. cbn [utils.Channel utils.UID]. rewrite Hu. project.
  eexists. eexists.
  split.
  { destruct (http_Do env _ _); project; reflexivity. }
  split; [reflexivity|]. split; [reflexivity|].
  intros Hhigh. cbn [utils.AcquireRequest_UID].
  apply string_of_rune_negative. rewrite int32_high by exact Hhigh. lia.
Qed.

Lemma Acquire_uid_is_a_code_point_witness :
  exists req b,
    requests (snd (Acquire (high_uid_env 4000000000) idle_recorder empty_world)) = [req]
    /\ Body req = AcquireBody b
    /\ utils.AcquireRequest_UID b = replacement_char.
Proof.
  destruct (Acquire_uid_is_a_code_point (high_uid_env 4000000000) idle_recorder empty_world
              {| model.UID := 4000000000; model.Rtc := "token" |} eq_refl eq_refl)
    as (req & b & Hreq & Hbody & _ & Hhigh).
  exists req, b. split; [exact Hreq|]. split; [exact Hbody|].
  apply Hhigh. cbn. lia.
Defined.

(** X4.  [Recorder.Start] does not look at the status of the response:
    whenever the time zone loads, the request can be built and the round
    trip yields a response, it returns no error, takes the session id from
    the member [sid] of the body (the empty string when there is none), and
    has sent exactly one request, to the start address of the acquired
    resource id. *)
Theorem Start_accepts_any_response (env : Env) (rec : utils.Recorder) (channelTitle : string)
  (secret : option string) (w : World) (resp : Response) :
  LoadLocation_err env = None ->
  NewRequest_err env (start_url env (utils.RID rec)) = None ->
  (forall req, http_Do env (clock w) req = inr resp) ->
  exists rec' req,
    fst (Start env rec channelTitle secret w) = Return (None, rec')
    /\ utils.SID rec' = map_index (Decoded resp) "sid"
    /\ utils.RID rec' = utils.RID rec
    /\ utils.UID rec' = utils.UID rec
    /\ requests (snd (Start env rec channelTitle secret w)) = (requests w ++ [req])%list
    /\ URL req = start_url env (utils.RID rec).
Proof.
  intros Htz Hu Hd. unfold start_url in *.
  unfold_go. rewrite Htz. project. rewrite Hu. project. rewrite Hd. project.
  eexists. eexists. repeat split.
Qed.

Lemma Start_accepts_any_response_witness :
  StatusCode upstream_refusal = 401%Z
  /\ exists rec',
       fst (Start refused_env idle_recorder "Weeklysync" None empty_world)
       = Return (None, rec')
       /\ utils.SID rec' = "".
Proof.
  split; [reflexivity|].
  destruct (Start_accepts_any_response refused_env idle_recorder "Weeklysync" None
              empty_world upstream_refusal eq_refl eq_refl (fun _ => eq_refl))
    as (rec' & req & Hres & Hsid & _).
  exists rec'. split; [exact Hres | exact Hsid].
Defined.

(** X5.  An empty secret is no secret.  For a pointer to the empty
    string, [Recorder.Start] sends the very request and returns the very
    result it does for nil (no decryption mode, no secret member), and so
    StartRecordingSession returns the same result, sends the same requests
    and the same statements, and leaves the same table in both cases. *)
Theorem empty_secret_is_no_secret (env : Env) (ctx : Context) (passphrase : string)
  (rec : utils.Recorder) (channelTitle : string) (w : World) :
  Start env rec channelTitle (Some "") w = Start env rec channelTitle None w
  /\ fst (StartRecordingSession env ctx passphrase (Some "") w)
     = fst (StartRecordingSession env ctx passphrase None w)
  /\ requests (snd (StartRecordingSession env ctx passphrase (Some "") w))
     = requests (snd (StartRecordingSession env ctx passphrase None w))
  /\ db_calls (snd (StartRecordingSession env ctx passphrase (Some "") w))
     = db_calls (snd (StartRecordingSession env ctx passphrase None w))
  /\ channels (snd (StartRecordingSession env ctx passphrase (Some "") w))
     = channels (snd (StartRecordingSession env ctx passphrase None w)).
Proof.
  split; [reflexivity|].
  unfold_go. cbn [String.eqb negb]. go_cases; project; repeat split; reflexivity.
Qed.

(** X6.  [Stop] builds the stop address from the resource id and the
    session id and sends one request there; it returns nil for every
    response, whatever its status, and logs it. *)
Theorem Stop_accepts_any_response (env : Env) (channel : string) (uid : Z) (rid sid : string)
  (w : World) (resp : Response) :
  NewRequest_err env (stop_url env rid sid) = None ->
  (forall req, http_Do env (clock w) req = inr resp) ->
  exists req b,
    fst (Stop env channel uid rid sid w) = Return None
    /\ requests (snd (Stop env channel uid rid sid w)) = (requests w ++ [req])%list
    /\ Method req = "POST"
    /\ URL req = stop_url env rid sid
    /\ Body req = AcquireBody b
    /\ utils.AcquireRequest_Cname b = channel
    /\ utils.AcquireRequest_UID b = string_of_rune uid
    /\ log (snd (Stop env channel uid rid sid w))
       = (log w ++ [(InfoLevel, "Stop Cloud Recording Response")])%list.
Proof.
  intros Hu Hd. unfold stop_url in *.
  unfold_go. project. rewrite Hu. project. rewrite Hd. project.
  eexists. eexists. repeat split.
Qed.

Lemma Stop_accepts_any_response_witness :
  StatusCode upstream_refusal = 401%Z
  /\ fst (Stop refused_env "room" 7 "R1" "S1" empty_world) = Return None
  /\ map URL (requests (snd (Stop refused_env "room" 7 "R1" "S1" empty_world)))
     = ["https://api.agora.io/v1/apps/app/cloud_recording/resourceid/R1/sid/S1/mode/mix/stop"].
Proof.
  split; [reflexivity|].
  destruct (Stop_accepts_any_response refused_env "room" 7 "R1" "S1" empty_world
              upstream_refusal eq_refl (fun _ => eq_refl))
    as (req & b & Hres & Hreq & _ & Hurl & _).
  split; [exact Hres|].
  rewrite Hreq. cbn [map app requests empty_world]. rewrite Hurl. reflexivity.
Defined.

(** A failing [Stop] sends at most the one request; without a buildable
    request it sends none. *)
Lemma Stop_unbuildable_sends_nothing (env : Env) (channel : string) (uid : Z)
  (rid sid : string) (w : World) (e : error) :
  NewRequest_err env (stop_url env rid sid) = Some e ->
  Stop env channel uid rid sid w = (Return (Some e), w).
Proof.
  intros Hu. unfold stop_url in Hu. unfold_go. project. rewrite Hu. reflexivity.
Qed.

(** ** CreateChannel *)

(** The steps of CreateChannel after the gate, one case per generator and
    for the INSERT; [fin] closes the goal of a step that fails. *)
Ltac create_cases env w fin :=
  destruct (uuid_at env (clock w)) eqn:Hu0; project; [solve [fin]|];
  destruct (uuid_at env (S (clock w))) eqn:Hu1; project; [solve [fin]|];
  destruct (uuid_at env (S (S (clock w)))) eqn:Hu2; project; [solve [fin]|];
  destruct (uuid_at env (S (S (S (clock w))))) eqn:Hu3; project; [solve [fin]|];
  destruct (dtmf_at env (S (S (S (S (clock w)))))) eqn:Hd; project; [solve [fin]|];
  try solve [fin];
  (destruct (db_err env (S (S (S (S (S (clock w))))))) eqn:Hdb; project; [solve [fin]|]).

(** X7.  When CreateChannel returns a response, [enablePstn] was present
    and exactly one row has been added to the table, which the response
    describes: its two passphrases, its channel name and its title are those
    of the row.  The row holds what the generators returned: host and viewer
    passphrase are the first and the second identifier, channel name and
    channel secret the third and the fourth without their dashes, and the
    DTMF code is the generated code, stored whether [enablePstn] is true or
    false.  The title is stored as given and the row has no recording state.
    The PSTN object carries the configured number and the stored code when
    [enablePstn] is true, and is nil otherwise. *)
Theorem CreateChannel_response_matches_row (env : Env) (ctx : Context) (title : string)
  (enablePstn : option bool) (w : World) (r : model.ShareResponse) :
  fst (CreateChannel env ctx title enablePstn w) = Return r ->
  exists b row,
    enablePstn = Some b
    /\ channels (snd (CreateChannel env ctx title enablePstn w)) = (channels w ++ [row])%list
    /\ model.Host (model.ShareResponse_Passphrase r) = Some (models.HostPassphrase row)
    /\ model.View (model.ShareResponse_Passphrase r) = models.ViewerPassphrase row
    /\ model.ShareResponse_Channel r = models.ChannelName row
    /\ model.ShareResponse_Title r = title
    /\ models.Title row = title
    /\ model.ShareResponse_Pstn r
       = (if b then Some {| model.Number := PSTN_NUMBER env; model.Dtmf := models.DTMF row |}
          else None)
    /\ recording_absent row = true
    /\ all_bytes not_dash (models.ChannelName row) = true
    /\ all_bytes not_dash (models.ChannelSecret row) = true
    /\ dtmf_at env (4 + clock w) = inr (models.DTMF row)
    /\ uuid_at env (clock w) = inr (models.HostPassphrase row)
    /\ uuid_at env (1 + clock w) = inr (models.ViewerPassphrase row)
    /\ (exists name, uuid_at env (2 + clock w) = inr name
                     /\ models.ChannelName row = ReplaceAll_dash name)
    /\ (exists secret, uuid_at env (3 + clock w) = inr secret
                       /\ models.ChannelSecret row = ReplaceAll_dash secret).
Proof.
  unfold_go. project.
  destruct enablePstn as [[|]|];
    (destruct (ENABLE_OAUTH env); [destruct (ctx_user ctx)|]; project;
     try discriminate; create_cases env w ltac:(intros H; discriminate H)).
  all: intros H; injection H as <-; eexists; eexists;
    (split; [reflexivity|]); (split; [reflexivity|]);
    cbn [inserted_row models.HostPassphrase models.ViewerPassphrase models.ChannelName
         models.ChannelSecret models.Title models.DTMF model.Host model.View
         model.ShareResponse_Passphrase model.ShareResponse_Channel
         model.ShareResponse_Title model.ShareResponse_Pstn Nat.add];
    repeat (split; [reflexivity|]);
    (split; [apply filter_bytes_all|]); (split; [apply filter_bytes_all|]);
    repeat (split; [first [reflexivity | assumption]|]);
    (split; eexists; (split; [first [reflexivity | eassumption] | reflexivity])).
Qed.

Lemma CreateChannel_response_matches_row_witness :
  exists r row,
    fst (CreateChannel demo_env no_ctx "Weekly sync" (Some false) empty_world) = Return r
    /\ channels (snd (CreateChannel demo_env no_ctx "Weekly sync" (Some false) empty_world))
       = [row]
    /\ model.ShareResponse_Pstn r = None
    /\ dtmf_at demo_env 4 = inr (models.DTMF row)
    /\ models.DTMF row = "4711".
Proof.
  eexists. 
  destruct (CreateChannel_response_matches_row demo_env no_ctx "Weekly sync" (Some false)
              empty_world _ eq_refl)
    as (b & row & Hb & Hrows & _ & _ & _ & _ & _ & Hpstn & _ & _ & _ & Hdtmf & _).
  exists row. split; [reflexivity|]. split; [exact Hrows|].
  injection Hb as <-. split; [exact Hpstn|]. split; [exact Hdtmf|].
  cbn in Hrows. injection Hrows as <-. reflexivity.
Defined.

(** X8.  When CreateChannel returns an error, the table is as it was, and
    the error is [Invalid Token], [Internal Server Error], or, passed on as
    it came, the error of the fourth call of the identifier generator (the
    one for the channel secret). *)
Theorem CreateChannel_error (env : Env) (ctx : Context) (title : string)
  (enablePstn : option bool) (w : World) (e : error) :
  fst (CreateChannel env ctx title enablePstn w) = Error e ->
  channels (snd (CreateChannel env ctx title enablePstn w)) = channels w
  /\ (e = errorsNew "Invalid Token"
      \/ e = errInternalServer
      \/ uuid_at env (3 + clock w) = inl e).
Proof.
  unfold_go. project.
  destruct enablePstn as [[|]|];
    (destruct (ENABLE_OAUTH env); [destruct (ctx_user ctx)|]; project;
     try solve [intros H; injection H as <-; split; [reflexivity | auto]];
     create_cases env w
       ltac:(first
               [ intros H; discriminate H
               | intros H; injection H as <-; split; [reflexivity|];
                 first [ right; left; reflexivity | right; right; eassumption ] ]);
     intros H; discriminate H).
Qed.

Lemma CreateChannel_error_witness :
  fst (CreateChannel no_secret_env no_ctx "Weekly sync" (Some true) empty_world)
  = Error (errorsNew "rand: short read")
  /\ channels (snd (CreateChannel no_secret_env no_ctx "Weekly sync" (Some true) empty_world))
     = [].
Proof.
  assert (H : fst (CreateChannel no_secret_env no_ctx "Weekly sync" (Some true) empty_world)
              = Error (errorsNew "rand: short read")) by reflexivity.
  split; [exact H|].
  destruct (CreateChannel_error no_secret_env no_ctx "Weekly sync" (Some true) empty_world
              _ H) as [Hrows _].
  exact Hrows.
Defined.

(** ** JoinChannel *)

(** X9.  A passphrase that resolves to a role on a row is given a session
    for that row: its title, channel name and channel secret, the role
    ([IsHost] exactly for the host passphrase), and two credentials generated
    for the channel name, the main one first and the screen-share one
    second.  JoinChannel writes nothing to the table and sends no request. *)
Theorem JoinChannel_session (env : Env) (ctx : Context) (w : World) (passphrase : string)
  (c : models.Channel) (role : Role) (mainUser screenShare : model.UserCredentials) :
  resolves env w JoinChannel_query passphrase c role ->
  creds_at env (S (clock w)) (models.ChannelName c) true = inr mainUser ->
  creds_at env (S (S (clock w))) (models.ChannelName c) false = inr screenShare ->
  fst (JoinChannel env ctx passphrase w)
  = Return {| model.Session_Title := models.Title c;
              model.Session_Channel := models.ChannelName c;
              model.Session_IsHost :=
                match role with RoleHost => true | RoleViewer => false end;
              model.Session_MainUser := mainUser;
              model.Session_ScreenShare := screenShare;
              model.Session_Secret := models.ChannelSecret c |}
  /\ channels (snd (JoinChannel env ctx passphrase w)) = channels w
  /\ requests (snd (JoinChannel env ctx passphrase w)) = requests w.
Proof.
  intros (Hne & Hlook & Hrole) Hm Hs.
  apply eqb_empty_false in Hne.
  unfold_go. project. rewrite Hne. project. rewrite Hlook. project.
  destruct role.
  - apply eqb_true_of_eq in Hrole. rewrite Hrole. project.
    rewrite Hm. project. rewrite Hs. project. auto.
  - destruct Hrole as [Hnh Hv].
    apply eqb_false_of_neq in Hnh. apply eqb_true_of_eq in Hv. rewrite Hnh, Hv. project.
    rewrite Hm. project. rewrite Hs. project. auto.
Qed.

Lemma JoinChannel_session_witness :
  resolves demo_env recorded_world JoinChannel_query "view-phrase"
    (StructScan session_columns recorded_channel) RoleViewer
  /\ exists session,
       fst (JoinChannel demo_env no_ctx "view-phrase" recorded_world) = Return session
       /\ model.Session_IsHost session = false
       /\ model.Session_Channel session = "room".
Proof.
  assert (H : resolves demo_env recorded_world JoinChannel_query "view-phrase"
                (StructScan session_columns recorded_channel) RoleViewer).
  { split; [discriminate|]. split; [reflexivity|]. split; [discriminate | reflexivity]. }
  split; [exact H|].
  destruct (JoinChannel_session demo_env no_ctx recorded_world "view-phrase" _ RoleViewer
              _ _ H eq_refl eq_refl) as (Hres & _).
  eexists. split; [exact Hres|]. split; reflexivity.
Defined.

(** X10.  When either of the two credentials cannot be generated,
    JoinChannel returns [Internal Server Error] and no session; when the
    main credentials fail the screen-share credentials are not asked for
    (the clock shows the lookup and one generation). *)
Theorem JoinChannel_credentials_failure (env : Env) (ctx : Context) (w : World)
  (passphrase : string) (c : models.Channel) (role : Role) (e : error) :
  resolves env w JoinChannel_query passphrase c role ->
  (creds_at env (S (clock w)) (models.ChannelName c) true = inl e
   \/ (exists mainUser,
         creds_at env (S (clock w)) (models.ChannelName c) true = inr mainUser)
      /\ creds_at env (S (S (clock w))) (models.ChannelName c) false = inl e) ->
  fst (JoinChannel env ctx passphrase w) = Error errInternalServer
  /\ (creds_at env (S (clock w)) (models.ChannelName c) true = inl e ->
      clock (snd (JoinChannel env ctx passphrase w)) = 2 + clock w).
Proof.
  intros (Hne & Hlook & Hrole) Hfail.
  apply eqb_empty_false in Hne.
  assert (Hcmp :
    (String.eqb passphrase (models.HostPassphrase c) = true)
    \/ (String.eqb passphrase (models.HostPassphrase c) = false
        /\ String.eqb passphrase (models.ViewerPassphrase c) = true)).
  { destruct role; [left; now apply eqb_true_of_eq|].
    destruct Hrole as [Hnh Hv]. right.
    split; [now apply eqb_false_of_neq | now apply eqb_true_of_eq]. }
  unfold_go. project. rewrite Hne. project. rewrite Hlook. project.
  destruct Hcmp as [Hh | [Hh Hv]]; rewrite Hh; try rewrite Hv; project;
    (destruct Hfail as [Hm | [[mainUser Hm] Hs]]; rewrite Hm; project;
     [ split; [reflexivity | intros _; reflexivity]
     | rewrite Hs; project; split; [reflexivity | intros H; discriminate H] ]).
Qed.

Lemma JoinChannel_credentials_failure_witness :
  fst (JoinChannel no_screen_creds_env no_ctx "host-phrase" recorded_world)
  = Error errInternalServer.
Proof.
  assert (H : resolves no_screen_creds_env recorded_world JoinChannel_query "host-phrase"
                (StructScan session_columns recorded_channel) RoleHost).
  { split; [discriminate|]. split; reflexivity. }
  apply (JoinChannel_credentials_failure no_screen_creds_env no_ctx recorded_world
           "host-phrase" _ RoleHost (errorsNew "token: signing failed") H).
  right. split; [eexists; reflexivity | reflexivity].
Defined.

(** ** A channel that was created can be joined *)

(** The row and the draws behind a response of CreateChannel. *)
Lemma CreateChannel_success_row (env : Env) (ctx : Context) (title : string)
  (enablePstn : option bool) (w : World) (r : model.ShareResponse) :
  fst (CreateChannel env ctx title enablePstn w) = Return r ->
  exists row,
    channels (snd (CreateChannel env ctx title enablePstn w)) = (channels w ++ [row])%list
    /\ clock (snd (CreateChannel env ctx title enablePstn w)) = 6 + clock w
    /\ model.ShareResponse_Passphrase r
       = {| model.Host := Some (models.HostPassphrase row);
            model.View := models.ViewerPassphrase row |}
    /\ model.ShareResponse_Channel r = models.ChannelName row
    /\ models.Title row = title
    /\ uuid_at env (clock w) = inr (models.HostPassphrase row)
    /\ uuid_at env (S (clock w)) = inr (models.ViewerPassphrase row).
Proof.
  unfold_go. project.
  destruct enablePstn as [[|]|];
    (destruct (ENABLE_OAUTH env); [destruct (ctx_user ctx)|]; project;
     try discriminate; create_cases env w ltac:(intros H; discriminate H)).
  all: intros H; injection H as <-; eexists;
    cbn [inserted_row models.HostPassphrase models.ViewerPassphrase models.ChannelName
         models.Title model.ShareResponse_Passphrase model.ShareResponse_Channel];
    repeat (split; [reflexivity|]); reflexivity.
Qed.

Lemma find_app_last {A} (f : A -> bool) (l : list A) (y : A) :
  (forall x, List.In x l -> f x = false) -> f y = true -> find f (l ++ [y]) = Some y.
Proof.
  intros Hl Hy. induction l as [|x l IH]; cbn [app find].
  - rewrite Hy. reflexivity.
  - rewrite (Hl x) by (left; reflexivity). apply IH.
    intros x' Hin. apply Hl. right. exact Hin.
Qed.

Lemma Forall2_elem_right {A B} (R : A -> B -> Prop) (xs : list A) (ys : list B) (y : B) :
  Forall2 R xs ys -> List.In y ys -> exists x, List.In x xs /\ R x y.
Proof.
  intros H. induction H as [|x y' xs ys Hxy Hrest IH]; intros Hin; [destruct Hin|].
  destruct Hin as [-> | Hin].
  - exists x. split; [left; reflexivity | exact Hxy].
  - destruct (IH Hin) as (x' & Hx' & HR). exists x'. split; [right; exact Hx' | exact HR].
Qed.

(** An identifier drawn now or later is the passphrase of no stored row. *)
Lemma issued_later_draw (env : Env) (w : World) (t : nat) (h : string) (row : models.Channel) :
  uuid_fresh env -> issued env w -> clock w <= t -> uuid_at env t = inr h ->
  List.In row (channels w) ->
  models.HostPassphrase row <> h /\ models.ViewerPassphrase row <> h.
Proof.
  intros Hfresh (idx & Hall & _ & Hlt) Ht Hh Hin.
  assert (Hp : forall p, List.In p (passphrases (channels w)) -> p <> h).
  { intros p Hpin ->.
    destruct (Forall2_elem_right _ _ _ _ Hall Hpin) as (i & Hi & Hui).
    rewrite Forall_forall in Hlt. apply list_elem_of_In in Hi. apply Hlt in Hi.
    pose proof (Hfresh i t h Hui Hh). lia. }
  split; apply Hp; unfold passphrases; apply in_flat_map; exists row;
    (split; [exact Hin|]); cbn; auto.
Qed.

(** X11.  In a store that compares passphrases byte by byte, with an
    identifier generator that never repeats itself: the two passphrases
    that CreateChannel returns open the channel it created.  JoinChannel
    with the host passphrase yields a host session, with the viewer
    passphrase a viewer session, both for the channel name and the title of
    the response. *)
Theorem create_then_join (env : Env) (ctx ctx' : Context) (title : string)
  (enablePstn : option bool) (w : World) (r : model.ShareResponse) (h v : string) :
  (forall a b, sql_eq env a b = String.eqb a b) ->
  uuid_fresh env ->
  issued env w ->
  fst (CreateChannel env ctx title enablePstn w) = Return r ->
  model.ShareResponse_Passphrase r = {| model.Host := Some h; model.View := v |} ->
  h <> "" -> v <> "" ->
  db_err env (6 + clock w) = None ->
  (forall t channel isMain, exists creds, creds_at env t channel isMain = inr creds) ->
  forall (passphrase : string) (isHost : bool),
    (passphrase = h /\ isHost = true) \/ (passphrase = v /\ isHost = false) ->
    exists session,
      fst (JoinChannel env ctx' passphrase (snd (CreateChannel env ctx title enablePstn w)))
      = Return session
      /\ model.Session_IsHost session = isHost
      /\ model.Session_Channel session = model.ShareResponse_Channel r
      /\ model.Session_Title session = title.
Proof.
  intros Heq Hfresh Hissued Hcreate Hpass Hh Hv Hdb Hcreds passphrase isHost Hwhich.
  destruct (CreateChannel_success_row env ctx title enablePstn w r Hcreate)
    as (row & Hrows & Hclock & Hpass' & Hchan & Htitle & Huh & Huv).
  rewrite Hpass in Hpass'. injection Hpass' as Hh' Hv'. subst h v.
  assert (Hhv : models.HostPassphrase row <> models.ViewerPassphrase row).
  { intros Hsame. rewrite Hsame in Huh.
    pose proof (Hfresh _ _ _ Huh Huv). lia. }
  assert (Hfind : find (where_matches env JoinChannel_query passphrase)
                    (channels w ++ [row]) = Some row).
  { apply find_app_last.
    - intros row0 Hin. unfold where_matches. cbn [JoinChannel_query sel_host sel_viewer
        operand_value]. rewrite !Heq.
      assert (Hp : models.HostPassphrase row0 <> passphrase
                   /\ models.ViewerPassphrase row0 <> passphrase).
      { destruct Hwhich as [[-> _] | [-> _]].
        - apply (issued_later_draw env w (clock w)); auto.
        - apply (issued_later_draw env w (S (clock w))); auto. }
      destruct Hp as [Hp1 Hp2].
      apply eqb_false_of_neq in Hp1, Hp2. rewrite Hp1, Hp2. reflexivity.
    - unfold where_matches. cbn [JoinChannel_query sel_host sel_viewer operand_value].
      rewrite !Heq. apply orb_true_iff.
      destruct Hwhich as [[-> _] | [-> _]]; [left | right]; apply String.eqb_eq; congruence. }
  set (w1 := snd (CreateChannel env ctx title enablePstn w)) in *.
  assert (Hne : String.eqb passphrase "" = false).
  { apply eqb_empty_false. destruct Hwhich as [[-> _] | [-> _]]; assumption. }
  destruct (Hcreds (S (clock w1)) (models.ChannelName row) true) as [m Hm].
  destruct (Hcreds (S (S (clock w1))) (models.ChannelName row) false) as [s Hs].
  unfold_go. project. rewrite Hne. project.
  unfold db_lookup. rewrite Hclock, Hdb, Hrows, Hfind.
  replace (strict_args env && negb (Nat.eqb (placeholders JoinChannel_query) 1))
    with false by (cbn; now rewrite andb_false_r).
  cbn [option_map StructScan models.HostPassphrase models.ViewerPassphrase models.Title
       models.ChannelName models.ChannelSecret selects existsb session_columns
       JoinChannel_query sel_columns col.index Nat.eqb orb].
  rewrite Hclock in Hm, Hs.
  destruct Hwhich as [[-> ->] | [-> ->]].
  - rewrite String.eqb_refl.
    project. rewrite Hm. project. rewrite Hs. project.
    eexists. split; [reflexivity|]. cbn. auto.
  - replace (String.eqb (models.ViewerPassphrase row) (models.HostPassphrase row))
      with false by (symmetry; apply String.eqb_neq; congruence).
    rewrite String.eqb_refl.
    project. rewrite Hm. project. rewrite Hs. project.
    eexists. split; [reflexivity|]. cbn. auto.
Qed.

Lemma create_then_join_witness :
  exists r session,
    fst (CreateChannel demo_env no_ctx "Weekly sync" (Some true) empty_world) = Return r
    /\ fst (JoinChannel demo_env no_ctx "u"
              (snd (CreateChannel demo_env no_ctx "Weekly sync" (Some true) empty_world)))
       = Return session
    /\ model.Session_IsHost session = true
    /\ model.Session_Channel session = model.ShareResponse_Channel r.
Proof.
  eexists.
  destruct (create_then_join demo_env no_ctx no_ctx "Weekly sync" (Some true) empty_world
              _ "u" "xu" (fun _ _ => eq_refl) demo_env_fresh (empty_world_issued demo_env)
              eq_refl eq_refl ltac:(discriminate) ltac:(discriminate) eq_refl
              (fun _ _ _ => ex_intro _ _ eq_refl) "u" true (or_introl (conj eq_refl eq_refl)))
    as (session & Hjoin & Hhost & Hchan & _).
  exists session. split; [reflexivity|]. split; [exact Hjoin|]. split; assumption.
Defined.

(** ** Share *)

(** X12.  A response of Share holds no passphrase the caller did not
    come with, but for the viewer passphrase given to the host: its host
    passphrase is the caller's own passphrase, or it is nil and the viewer
    passphrase is the caller's own. *)
Theorem Share_hides_host_passphrase (env : Env) (ctx : Context) (passphrase : string)
  (w : World) (r : model.ShareResponse) :
  fst (Share env ctx passphrase w) = Return r ->
  model.Host (model.ShareResponse_Passphrase r) = Some passphrase
  \/ (model.Host (model.ShareResponse_Passphrase r) = None
      /\ model.View (model.ShareResponse_Passphrase r) = passphrase).
Proof.
  unfold_go. project.
  destruct (String.eqb passphrase ""); project; [discriminate|].
  destruct (db_lookup env (channels w) (clock w) Share_query passphrase) as [c|];
    project; [|discriminate].
  destruct (String.eqb passphrase (models.HostPassphrase c)) eqn:Hh; project.
  { intros H. injection H as <-. left. cbn. f_equal. symmetry. now apply String.eqb_eq. }
  destruct (String.eqb passphrase (models.ViewerPassphrase c)) eqn:Hv; project;
    [|discriminate].
  intros H. injection H as <-. right. cbn. split; [reflexivity|].
  symmetry. now apply String.eqb_eq.
Qed.

Lemma Share_hides_host_passphrase_witness :
  exists r,
    fst (Share lenient_env no_ctx "$1" dollar_world) = Return r
    /\ model.Host (model.ShareResponse_Passphrase r) = Some "$1".
Proof.
  eexists. split; [reflexivity|].
  destruct (Share_hides_host_passphrase lenient_env no_ctx "$1" dollar_world _ eq_refl)
    as [H | [H _]]; [exact H | discriminate H].
Defined.

(** X13.  The statement of Share compares the passphrase columns with the
    two characters [$1], not with the passphrase it is given.  Share
    therefore returns a response only from a store that does not check the
    bound arguments, and only when the table holds a row one of whose
    passphrases the store takes to be equal to [$1]; otherwise it fails for
    every passphrase, that of an existing channel included. *)
Theorem Share_answers_dollar_one_only (env : Env) (ctx : Context) (passphrase : string)
  (w : World) (r : model.ShareResponse) :
  fst (Share env ctx passphrase w) = Return r ->
  strict_args env = false
  /\ exists row,
       List.In row (channels w)
       /\ (sql_eq env (models.HostPassphrase row) "$1" = true
           \/ sql_eq env (models.ViewerPassphrase row) "$1" = true).
Proof.
  unfold_go. project.
  destruct (String.eqb passphrase ""); project; [discriminate|].
  unfold db_lookup.
  destruct (db_err env (clock w)); project; [discriminate|].
  destruct (strict_args env); project; [discriminate|].
  destruct (find _ (channels w)) as [row|] eqn:Hfind; cbn [option_map]; project;
    [|discriminate].
  intros _. split; [reflexivity|].
  apply find_some in Hfind as [Hin Hmatch].
  unfold where_matches in Hmatch.
  cbn [Share_query sel_host sel_viewer operand_value] in Hmatch.
  apply orb_true_iff in Hmatch.
  exists row. split; assumption.
Qed.

Lemma Share_answers_dollar_one_only_witness :
  (exists r, fst (Share lenient_env no_ctx "$1" dollar_world) = Return r)
  /\ strict_args lenient_env = false
  /\ models.HostPassphrase dollar_channel = "$1".
Proof.
  split; [eexists; reflexivity|].
  destruct (Share_answers_dollar_one_only lenient_env no_ctx "$1" dollar_world _ eq_refl)
    as [Hstrict _].
  split; [exact Hstrict | reflexivity].
Defined.

(** A store that checks bound arguments refuses every Share. *)
Lemma Share_strict_always_fails (env : Env) (ctx : Context) (passphrase : string) (w : World) :
  strict_args env = true -> passphrase <> "" ->
  fst (Share env ctx passphrase w) = Error (errorsNew "Invalid URL").
Proof.
  intros Hstrict Hne. apply eqb_empty_false in Hne.
  unfold_go. project. rewrite Hne. project.
  unfold db_lookup. destruct (db_err env (clock w)); project; [reflexivity|].
  rewrite Hstrict. reflexivity.
Qed.

(** ** StartRecordingSession *)

(** X14.  A Host's StartRecordingSession whose steps all go through sends
    two requests: the acquire request for the channel, then a start request
    to the address of the resource id that the acquire response carried,
    with the token of the generated credentials and, as file name prefix,
    the sanitized title (of the authenticated caller's name under OAuth, of
    the channel otherwise) followed by date and time.  It then writes, on
    the rows that have the id of the channel, the numeric id of the
    credentials cut to 32 bits, that resource id, and the session id of the
    start response, and returns [success]. *)
Theorem StartRecordingSession_success (env : Env) (ctx : Context) (w : World)
  (passphrase : string) (c : models.Channel) (secret : option string)
  (creds : model.UserCredentials) (resp1 resp2 : Response) :
  resolves env w StartRecordingSession_query passphrase c RoleHost ->
  creds_at env (1 + clock w) (models.ChannelName c) false = inr creds ->
  NewRequest_err env (acquire_url env) = None ->
  (forall req, http_Do env (2 + clock w) req = inr resp1) ->
  LoadLocation_err env = None ->
  NewRequest_err env (start_url env (map_index (Decoded resp1) "resourceId")) = None ->
  (forall req, http_Do env (3 + clock w) req = inr resp2) ->
  db_err env (4 + clock w) = None ->
  fst (StartRecordingSession env ctx passphrase secret w) = Return "success"
  /\ (exists rd,
        channels (snd (StartRecordingSession env ctx passphrase secret w))
        = map (set_recording rd) (channels w)
        /\ models.ID rd = models.ID c
        /\ models.RecordingUID rd
           = {| sql.NullInt32_Int32 := int32 (model.UID creds);
                sql.NullInt32_Valid := true |}
        /\ models.RecordingRID rd
           = {| sql.NullString_String := map_index (Decoded resp1) "resourceId";
                sql.NullString_Valid := true |}
        /\ models.RecordingSID rd
           = {| sql.NullString_String := map_index (Decoded resp2) "sid";
                sql.NullString_Valid := true |})
  /\ (exists req2 b,
        requests (snd (StartRecordingSession env ctx passphrase secret w))
        = (requests w ++ [acquire_request env (models.ChannelName c) creds; req2])%list
        /\ URL req2 = start_url env (map_index (Decoded resp1) "resourceId")
        /\ Body req2 = StartBody b
        /\ utils.StartRecordRequest_Cname b = models.ChannelName c
        /\ utils.ClientRequest_Token (utils.StartRecordRequest_ClientRequest b)
           = model.Rtc creds
        /\ utils.FileNamePrefix
             (utils.ClientRequest_StorageConfig (utils.StartRecordRequest_ClientRequest b))
           = [finalTitle (recording_title env ctx c); currentDate env; currentTime env]).
Proof.
  intros (Hne & Hlook & Hhost) Hc Hu1 Hd1 Htz Hu2 Hd2 Hdb.
  apply eqb_empty_false in Hne. apply eqb_true_of_eq in Hhost.
  cbn [Nat.add] in *.
  unfold acquire_request, acquire_url, start_url, recording_title in *.
  unfold_go.
  destruct secret as [s|]; project; rewrite Hne; project; rewrite Hlook, Hhost; project;
    cbn [utils.Channel utils.UID utils.RID utils.Token utils.SID];
    rewrite Hc; project; cbn [utils.Channel utils.UID utils.RID utils.Token utils.SID];
    rewrite Hu1; project; rewrite Hd1; project;
    cbn [utils.Channel utils.UID utils.RID utils.Token utils.SID];
    rewrite Htz; project; cbn [utils.Channel utils.UID utils.RID utils.Token utils.SID];
    rewrite Hu2; project; rewrite Hd2; project;
    cbn [utils.Channel utils.UID utils.RID utils.Token utils.SID];
    rewrite Hdb; project;
    (split; [reflexivity|]);
    (split; [eexists; split; [reflexivity|]; repeat split|]);
    eexists; eexists; (split; [rewrite <- List.app_assoc; reflexivity|]); repeat split.
Qed.

Lemma StartRecordingSession_success_witness :
  fst (StartRecordingSession oauth_env ada_ctx "host-phrase" None idle_world)
  = Return "success"
  /\ exists req2 b,
       map URL (requests (snd (StartRecordingSession oauth_env ada_ctx "host-phrase" None
                                 idle_world)))
       = [acquire_url oauth_env; URL req2]
       /\ URL req2 = start_url oauth_env "R1"
       /\ Body req2 = StartBody b
       /\ utils.FileNamePrefix
            (utils.ClientRequest_StorageConfig (utils.StartRecordRequest_ClientRequest b))
          = ["AdaL"; "20200101"; "120000"].
Proof.
  assert (H : resolves oauth_env idle_world StartRecordingSession_query "host-phrase"
                (StructScan record_columns idle_channel) RoleHost).
  { split; [discriminate|]. split; reflexivity. }
  destruct (StartRecordingSession_success oauth_env ada_ctx idle_world "host-phrase" _ None
              {| model.UID := 7; model.Rtc := "token" |} upstream_ok upstream_ok
              H eq_refl eq_refl (fun _ => eq_refl) eq_refl eq_refl (fun _ => eq_refl) eq_refl)
    as (Hres & _ & req2 & b & Hreqs & Hurl & Hbody & _ & _ & Hprefix).
  split; [exact Hres|].
  exists req2, b. split; [rewrite Hreqs; reflexivity|].
  split; [exact Hurl|]. split; [exact Hbody|]. exact Hprefix.
Defined.

(** X15.  When the time zone data cannot be loaded, a Host's
    StartRecordingSession has already acquired a resource: it returns
    [Internal Server Error], the one request sent is the acquire request
    (nothing releases the resource), and the table is unchanged. *)
Theorem StartRecordingSession_start_failure (env : Env) (ctx : Context) (w : World)
  (passphrase : string) (c : models.Channel) (secret : option string)
  (creds : model.UserCredentials) (resp1 : Response) (e : error) :
  resolves env w StartRecordingSession_query passphrase c RoleHost ->
  creds_at env (1 + clock w) (models.ChannelName c) false = inr creds ->
  NewRequest_err env (acquire_url env) = None ->
  (forall req, http_Do env (2 + clock w) req = inr resp1) ->
  LoadLocation_err env = Some e ->
  fst (StartRecordingSession env ctx passphrase secret w) = Error errInternalServer
  /\ requests (snd (StartRecordingSession env ctx passphrase secret w))
     = (requests w ++ [acquire_request env (models.ChannelName c) creds])%list
  /\ channels (snd (StartRecordingSession env ctx passphrase secret w)) = channels w.
Proof.
  intros (Hne & Hlook & Hhost) Hc Hu1 Hd1 Htz.
  apply eqb_empty_false in Hne. apply eqb_true_of_eq in Hhost.
  cbn [Nat.add] in *.
  unfold acquire_request, acquire_url in *.
  unfold_go.
  destruct secret as [s|]; project; rewrite Hne; project; rewrite Hlook, Hhost; project;
    cbn [utils.Channel utils.UID utils.RID utils.Token utils.SID];
    rewrite Hc; project; cbn [utils.Channel utils.UID utils.RID utils.Token utils.SID];
    rewrite Hu1; project; rewrite Hd1; project;
    cbn [utils.Channel utils.UID utils.RID utils.Token utils.SID];
    rewrite Htz; project; repeat split.
Qed.

Lemma StartRecordingSession_start_failure_witness :
  fst (StartRecordingSession no_tz_env no_ctx "host-phrase" None idle_world)
  = Error errInternalServer
  /\ map URL (requests (snd (StartRecordingSession no_tz_env no_ctx "host-phrase" None
                               idle_world)))
     = [acquire_url no_tz_env].
Proof.
  assert (H : resolves no_tz_env idle_world StartRecordingSession_query "host-phrase"
                (StructScan record_columns idle_channel) RoleHost).
  { split; [discriminate|]. split; reflexivity. }
  destruct (StartRecordingSession_start_failure no_tz_env no_ctx idle_world "host-phrase" _
              None {| model.UID := 7; model.Rtc := "token" |} upstream_ok _
              H eq_refl eq_refl (fun _ => eq_refl) eq_refl)
    as (Hres & Hreqs & _).
  split; [exact Hres|]. rewrite Hreqs. reflexivity.
Defined.

(** X16.  When the UPDATE fails, a Host's StartRecordingSession has
    already started the recording upstream: it returns
    [Internal Server Error] after two requests, and the table keeps no trace
    of the resource id and the session id that a stop would need. *)
Theorem StartRecordingSession_update_failure (env : Env) (ctx : Context) (w : World)
  (passphrase : string) (c : models.Channel) (secret : option string)
  (creds : model.UserCredentials) (resp1 resp2 : Response) (e : error) :
  resolves env w StartRecordingSession_query passphrase c RoleHost ->
  creds_at env (1 + clock w) (models.ChannelName c) false = inr creds ->
  NewRequest_err env (acquire_url env) = None ->
  (forall req, http_Do env (2 + clock w) req = inr resp1) ->
  LoadLocation_err env = None ->
  NewRequest_err env (start_url env (map_index (Decoded resp1) "resourceId")) = None ->
  (forall req, http_Do env (3 + clock w) req = inr resp2) ->
  db_err env (4 + clock w) = Some e ->
  fst (StartRecordingSession env ctx passphrase secret w) = Error errInternalServer
  /\ length (requests (snd (StartRecordingSession env ctx passphrase secret w)))
     = 2 + length (requests w)
  /\ channels (snd (StartRecordingSession env ctx passphrase secret w)) = channels w.
Proof.
  intros (Hne & Hlook & Hhost) Hc Hu1 Hd1 Htz Hu2 Hd2 Hdb.
  apply eqb_empty_false in Hne. apply eqb_true_of_eq in Hhost.
  cbn [Nat.add] in *.
  unfold acquire_url, start_url in *.
  unfold_go.
  destruct secret as [s|]; project; rewrite Hne; project; rewrite Hlook, Hhost; project;
    cbn [utils.Channel utils.UID utils.RID utils.Token utils.SID];
    rewrite Hc; project; cbn [utils.Channel utils.UID utils.RID utils.Token utils.SID];
    rewrite Hu1; project; rewrite Hd1; project;
    cbn [utils.Channel utils.UID utils.RID utils.Token utils.SID];
    rewrite Htz; project; cbn [utils.Channel utils.UID utils.RID utils.Token utils.SID];
    rewrite Hu2; project; rewrite Hd2; project;
    cbn [utils.Channel utils.UID utils.RID utils.Token utils.SID];
    rewrite Hdb; project;
    (split; [reflexivity|]); (split; [|reflexivity]);
    rewrite !length_app; cbn [length]; lia.
Qed.

Lemma StartRecordingSession_update_failure_witness :
  fst (StartRecordingSession update_fails_env no_ctx "host-phrase" None idle_world)
  = Error errInternalServer
  /\ length (requests (snd (StartRecordingSession update_fails_env no_ctx "host-phrase" None
                              idle_world))) = 2
  /\ channels (snd (StartRecordingSession update_fails_env no_ctx "host-phrase" None
                      idle_world)) = [idle_channel].
Proof.
  assert (H : resolves update_fails_env idle_world StartRecordingSession_query "host-phrase"
                (StructScan record_columns idle_channel) RoleHost).
  { split; [discriminate|]. split; reflexivity. }
  apply (StartRecordingSession_update_failure update_fails_env no_ctx idle_world
           "host-phrase" _ None {| model.UID := 7; model.Rtc := "token" |}
           upstream_ok upstream_ok (errorsNew "pq: connection reset")
           H eq_refl eq_refl (fun _ => eq_refl) eq_refl eq_refl (fun _ => eq_refl) eq_refl).
Defined.

(** ** What the requests do to the table *)

Lemma same_identity_refl (row : models.Channel) : same_identity row row.
Proof. repeat split. Qed.

Lemma same_identity_trans (r1 r2 r3 : models.Channel) :
  same_identity r1 r2 -> same_identity r2 r3 -> same_identity r1 r3.
Proof.
  unfold same_identity. intros (a1 & a2 & a3 & a4 & a5 & a6 & a7)
    (b1 & b2 & b3 & b4 & b5 & b6 & b7).
  repeat split; congruence.
Qed.

Lemma same_identity_set_recording (rd row : models.Channel) :
  same_identity row (set_recording rd row).
Proof. unfold set_recording. destruct (Z.eqb _ _); repeat split. Qed.

(** The UPDATE of StartRecordingSession, row by row. *)
Lemma set_recording_rows (rd : models.Channel) (rows : list models.Channel) :
  Forall2
    (fun row row' =>
       same_identity row row'
       /\ (row' = row
           \/ (models.ID row = models.ID rd
               /\ models.RecordingUID row' = models.RecordingUID rd
               /\ models.RecordingRID row' = models.RecordingRID rd
               /\ models.RecordingSID row' = models.RecordingSID rd)))
    rows (map (set_recording rd) rows).
Proof.
  induction rows as [|row rows IH]; cbn [map]; constructor; [|exact IH].
  split; [apply same_identity_set_recording|].
  unfold set_recording. destruct (Z.eqb_spec (models.ID row) (models.ID rd)) as [Heq | Hne].
  - right. repeat split. exact Heq.
  - left. reflexivity.
Qed.

Lemma Forall2_same_rows (rows : list models.Channel) (R : models.Channel -> models.Channel -> Prop) :
  (forall row, R row row) -> Forall2 R rows rows.
Proof. intros HR. induction rows; constructor; auto. Qed.

(** The rows StartRecordingSession writes, and the row it looked up. *)
Lemma StartRecordingSession_channels (env : Env) (ctx : Context) (passphrase : string)
  (secret : option string) (w : World) :
  channels (snd (StartRecordingSession env ctx passphrase secret w)) = channels w
  \/ exists rd c,
       channels (snd (StartRecordingSession env ctx passphrase secret w))
       = map (set_recording rd) (channels w)
       /\ db_lookup env (channels w) (clock w) StartRecordingSession_query passphrase = Some c
       /\ models.ID rd = models.ID c
       /\ recording_full rd = true.
Proof.
  unfold_go.
  destruct secret; project;
    (destruct (String.eqb passphrase ""); project; [left; reflexivity|];
     destruct (db_lookup env (channels w) (clock w) StartRecordingSession_query passphrase)
       as [c|] eqn:Hlook; project; [|left; reflexivity];
     go_cases; project;
     first [ left; reflexivity
           | right; eexists; exists c; split; [reflexivity|];
             split; [reflexivity|]; split; reflexivity ]).
Qed.

(** X17.  StartRecordingSession changes nothing in the table but the
    recording state, and that only on the rows that have the id of the
    channel it looked up: every row keeps its id, title, channel name,
    secret, passphrases and DTMF code, and a row that differs from what it
    was has that id and a fully populated recording state. *)
Theorem StartRecordingSession_writes_recording_only (env : Env) (ctx : Context)
  (passphrase : string) (secret : option string) (w : World) :
  Forall2
    (fun row row' =>
       same_identity row row'
       /\ (row' = row
           \/ (recording_full row' = true
               /\ exists c,
                    db_lookup env (channels w) (clock w) StartRecordingSession_query
                      passphrase = Some c
                    /\ models.ID row = models.ID c)))
    (channels w)
    (channels (snd (StartRecordingSession env ctx passphrase secret w))).
Proof.
  destruct (StartRecordingSession_channels env ctx passphrase secret w)
    as [-> | (rd & c & -> & Hlook & Hid & Hfull)].
  - apply Forall2_same_rows. intros row. split; [apply same_identity_refl | left; reflexivity].
  - eapply Forall2_impl; [apply set_recording_rows|].
    cbv beta. intros row row' (Hsame & [-> | (Hrow & Huid & Hrid & Hsid)]).
    + split; [exact Hsame | left; reflexivity].
    + split; [exact Hsame|]. right. split.
      * unfold recording_full in *. rewrite Huid, Hrid, Hsid. exact Hfull.
      * exists c. split; [exact Hlook | congruence].
Qed.

Lemma Forall2_set_recording_identity (rd : models.Channel) (rows : list models.Channel) :
  Forall2 same_identity rows (map (set_recording rd) rows).
Proof.
  induction rows as [|row rows IH]; cbn [map]; constructor;
    [apply same_identity_set_recording | exact IH].
Qed.

Lemma serve_keeps_identity (env : Env) (c : Call) (w : World) :
  exists kept added,
    channels (serve env c w) = (kept ++ added)%list
    /\ Forall2 same_identity (channels w) kept.
Proof.
  destruct c as [ctx title enablePstn | ctx op passphrase]; cbn [serve].
  - destruct (CreateChannel_effect env ctx title enablePstn w)
      as [[-> _] | (row & -> & _)].
    + exists (channels w), []. rewrite app_nil_r.
      split; [reflexivity | apply Forall2_same_rows, same_identity_refl].
    + exists (channels w), [row].
      split; [reflexivity | apply Forall2_same_rows, same_identity_refl].
  - destruct (invoke_channels env ctx op passphrase w) as [-> | (rd & _ & ->)].
    + exists (channels w), []. rewrite app_nil_r.
      split; [reflexivity | apply Forall2_same_rows, same_identity_refl].
    + exists (map (set_recording rd) (channels w)), []. rewrite app_nil_r.
      split; [reflexivity | apply Forall2_set_recording_identity].
Qed.

Lemma Forall2_same_identity_trans (l1 l2 l3 : list models.Channel) :
  Forall2 same_identity l1 l2 -> Forall2 same_identity l2 l3 -> Forall2 same_identity l1 l3.
Proof.
  intros H12. revert l3. induction H12 as [|a b l1 l2 Hab H12 IH]; intros l3 H23.
  - inversion H23; constructor.
  - inversion H23 as [|? c ? l3' Hbc H23']; subst.
    constructor; [eapply same_identity_trans; eassumption | apply IH; assumption].
Qed.

Lemma serve_all_keeps_identity (env : Env) (cs : list Call) (w : World) :
  exists kept added,
    channels (serve_all env cs w) = (kept ++ added)%list
    /\ Forall2 same_identity (channels w) kept.
Proof.
  revert w. induction cs as [|c cs IH]; intros w.
  - exists (channels w), []. rewrite app_nil_r.
    split; [reflexivity | apply Forall2_same_rows, same_identity_refl].
  - cbn [serve_all fold_left].
    destruct (serve_keeps_identity env c w) as (kept0 & added0 & Hstep & Hkept0).
    destruct (IH (serve env c w)) as (kept1 & added1 & Hrest & Hkept1).
    fold (serve_all env cs (serve env c w)). rewrite Hrest.
    rewrite Hstep in Hkept1.
    apply Forall2_app_inv_l in Hkept1 as (k1 & k2 & Hk1 & Hk2 & ->).
    exists k1, (k2 ++ added1)%list. split; [symmetry; apply List.app_assoc |].
    eapply Forall2_same_identity_trans; eassumption.
Qed.

(** X18.  No sequence of requests removes a channel or changes what
    identifies it: after the sequence the table begins with the rows it had,
    in their order, each with its id, title, channel name, channel secret,
    passphrases and DTMF code as before; whatever is new comes after them. *)
Theorem channels_keep_identity (env : Env) (cs : list Call) (w : World) :
  exists kept added,
    channels (serve_all env cs w) = (kept ++ added)%list
    /\ Forall2 same_identity (channels w) kept
    /\ passphrases kept = passphrases (channels w).
Proof.
  destruct (serve_all_keeps_identity env cs w) as (kept & added & Hrows & Hkept).
  exists kept, added. split; [exact Hrows|]. split; [exact Hkept|].
  clear Hrows. induction Hkept as [|row row' rows rows' Hrow Hrows IH]; [reflexivity|].
  unfold passphrases in *. cbn [flat_map]. rewrite IH.
  destruct Hrow as (_ & _ & _ & _ & -> & -> & _). reflexivity.
Qed.

(** X19.  The recording state of every channel stays whole through every
    sequence of requests: resource id, session id and numeric id are all
    three present or all three absent, on the rows that were there and on
    the rows that are added. *)
Theorem recording_state_stays_whole (env : Env) (cs : list Call) (w : World) :
  Forall recording_all_or_nothing (channels w) ->
  Forall recording_all_or_nothing (channels (serve_all env cs w))
  /\ length (channels w) <= length (channels (serve_all env cs w)).
Proof.
  intros H. split; [apply serve_all_recording_all_or_nothing; exact H|].
  destruct (serve_all_keeps_identity env cs w) as (kept & added & -> & Hkept).
  apply Forall2_length in Hkept. rewrite length_app. lia.
Qed.

Lemma recording_state_stays_whole_witness :
  let cs := [CallCreateChannel no_ctx "Weekly sync" (Some true);
             CallInvoke no_ctx (OpStartRecording None) "u";
             CallCreateChannel no_ctx "Retro" (Some false)] in
  map recording_full (channels (serve_all demo_env cs empty_world)) = [true; false]
  /\ Forall recording_all_or_nothing (channels (serve_all demo_env cs empty_world)).
Proof.
  split; [vm_compute; reflexivity|].
  apply (recording_state_stays_whole demo_env _ empty_world). constructor.
Defined.

(** X20.  JoinChannel, Share and StopRecordingSession only read: they leave
    the table as it is and send the store at most one statement, the SELECT
    of the operation with the passphrase as its argument. *)
Theorem lookups_write_nothing (env : Env) (ctx : Context) (op : Operation)
  (passphrase : string) (w : World) :
  (forall secret, op <> OpStartRecording secret) ->
  channels (snd (invoke env ctx op passphrase w)) = channels w
  /\ (db_calls (snd (invoke env ctx op passphrase w)) = db_calls w
      \/ db_calls (snd (invoke env ctx op passphrase w))
         = (db_calls w ++ [CallGet (query_of op) passphrase])%list).
Proof.
  intros Hop. destruct op as [| | secret|]; [| |elim (Hop secret); reflexivity|];
    unfold_go; go_cases; project; cbn [query_of]; auto.
Qed.

Lemma lookups_write_nothing_witness :
  channels (snd (invoke demo_env no_ctx OpJoinChannel "host-phrase" recorded_world))
  = [recorded_channel]
  /\ db_calls (snd (invoke demo_env no_ctx OpJoinChannel "host-phrase" recorded_world))
     = [CallGet JoinChannel_query "host-phrase"].
Proof.
  destruct (lookups_write_nothing demo_env no_ctx OpJoinChannel "host-phrase" recorded_world)
    as [Hrows _]; [intros secret H; discriminate H|].
  split; [exact Hrows | reflexivity].
Defined.

(** ** The sanitized title *)

Lemma filter_bytes_id (p : ascii -> bool) (s : string) :
  all_bytes p s = true -> filter_bytes p s = s.
Proof.
  induction s as [|c s IH]; [reflexivity|]. cbn [all_bytes filter_bytes].
  intros H. apply andb_true_iff in H as [Hc Hs]. rewrite Hc, IH by exact Hs. reflexivity.
Qed.

Lemma filter_bytes_none (p : ascii -> bool) (s : string) :
  all_bytes (fun c => negb (p c)) s = true -> filter_bytes p s = EmptyString.
Proof.
  induction s as [|c s IH]; [reflexivity|]. cbn [all_bytes filter_bytes].
  intros H. apply andb_true_iff in H as [Hc Hs].
  apply negb_true_iff in Hc. rewrite Hc. apply IH. exact Hs.
Qed.

Lemma all_bytes_slice (p : ascii -> bool) (n : nat) (s : string) :
  all_bytes p s = true -> all_bytes p (slice_to n s) = true.
Proof.
  revert n. induction s as [|c s IH]; intros [|n] H; cbn [slice_to all_bytes] in *;
    try reflexivity.
  apply andb_true_iff in H as [Hc Hs]. rewrite Hc. apply IH. exact Hs.
Qed.

(** X21.  The title handed to the recorder holds nothing but ASCII letters
    and digits.  Sanitizing is idempotent; a title of at most 100 letters
    and digits is passed on as it is; and a title without any ASCII letter
    or digit, such as one written in another script, becomes the empty
    string. *)
Theorem finalTitle_fixed_points (title : string) :
  all_bytes is_alnum_byte (finalTitle title) = true
  /\ finalTitle (finalTitle title) = finalTitle title
  /\ (all_bytes is_alnum_byte title = true -> String.length title <= 100 ->
      finalTitle title = title)
  /\ (all_bytes (fun c => negb (is_alnum_byte c)) title = true ->
      finalTitle title = EmptyString).
Proof.
  assert (Hall : all_bytes is_alnum_byte (finalTitle title) = true).
  { rewrite finalTitle_spec. unfold sanitized_title_spec, truncate, strip_non_alnum.
    rewrite <- slice_to_substring. apply all_bytes_slice, filter_bytes_all. }
  assert (Hfix : forall t, all_bytes is_alnum_byte t = true -> String.length t <= 100 ->
                           finalTitle t = t).
  { intros t Ht Hlen. rewrite finalTitle_spec.
    unfold sanitized_title_spec, truncate, strip_non_alnum.
    rewrite filter_bytes_id by exact Ht.
    rewrite <- slice_to_substring. apply slice_to_all. exact Hlen. }
  split; [exact Hall|]. split; [|split].
  - apply Hfix; [exact Hall|].
    rewrite finalTitle_spec. unfold sanitized_title_spec, truncate.
    rewrite <- slice_to_substring, slice_to_length. lia.
  - apply Hfix.
  - intros Hnone. rewrite finalTitle_spec.
    unfold sanitized_title_spec, truncate, strip_non_alnum.
    rewrite filter_bytes_none by exact Hnone. reflexivity.
Qed.

Lemma finalTitle_fixed_points_witness :
  finalTitle "WeeklySync42" = "WeeklySync42"
  /\ RuneCountInString foreign_title = 3
  /\ finalTitle foreign_title = EmptyString.
Proof.
  destruct (finalTitle_fixed_points "WeeklySync42") as (_ & _ & Hsame & _).
  destruct (finalTitle_fixed_points foreign_title) as (_ & _ & _ & Hnone).
  split; [apply Hsame; [reflexivity | cbn; lia]|].
  split; [reflexivity|].
  apply Hnone. reflexivity.
Defined.

(** ** LogoutSession *)

Lemma filter_negb_none {A} (f : A -> bool) (l : list A) :
  (forall x, List.In x l -> f x = false) -> List.filter (fun x => negb (f x)) l = l.
Proof.
  intros H. induction l as [|x l IH]; [reflexivity|].
  cbn [List.filter]. rewrite (H x) by (left; reflexivity). cbn [negb]. f_equal.
  apply IH. intros y Hy. apply H. right. exact Hy.
Qed.

Lemma filter_nil_iff {A} (f : A -> bool) (l : list A) :
  List.filter f l = [] <-> (forall x, List.In x l -> f x = false).
Proof.
  induction l as [|x l IH]; cbn [List.filter].
  - split; [intros _ y [] | reflexivity].
  - destruct (f x) eqn:Hx.
    + split; [discriminate|]. intros H. specialize (H x (or_introl eq_refl)). congruence.
    + rewrite IH. split.
      * intros H y [<- | Hy]; [exact Hx | apply H; exact Hy].
      * intros H y Hy. apply H. right. exact Hy.
Qed.

Lemma filter_after_delete {A} (f g : A -> bool) (l : list A) :
  (forall x, f x = true -> g x = false) ->
  List.filter g (List.filter (fun x => negb (f x)) l) = List.filter g l.
Proof.
  intros H. induction l as [|x l IH]; [reflexivity|].
  cbn [List.filter]. destruct (f x) eqn:Hf; cbn [negb List.filter].
  - rewrite (H x Hf). exact IH.
  - rewrite IH. reflexivity.
Qed.

(** X22.  When LogoutSession returns a list, the table has lost exactly
    the caller's rows whose token id the store takes to be the given one,
    and there was at least one; the tokens of the other users are all still
    there; and the list holds the token ids of the rows the caller has left,
    in table order, among them no id that the store takes to be the one
    logged out. *)
Theorem LogoutSession_success (env : Env) (ctx : account.Context) (token : string)
  (tokens : list account.Token) (w : World) (ids : list string) :
  fst (LogoutSession env ctx token tokens w) = Return ids ->
  exists authUser,
    account.auth_user ctx = Some authUser
    /\ (exists row, List.In row tokens
                    /\ token_deleted env token (account.ID authUser) row = true)
    /\ fst (snd (LogoutSession env ctx token tokens w))
       = List.filter (fun row => negb (token_deleted env token (account.ID authUser) row))
           tokens
    /\ ids = map account.TokenID
               (List.filter (token_of_user (account.ID authUser))
                  (fst (snd (LogoutSession env ctx token tokens w))))
    /\ (forall id, List.In id ids -> sql_eq env id token = false)
    /\ List.filter (fun row => negb (token_of_user (account.ID authUser) row))
         (fst (snd (LogoutSession env ctx token tokens w)))
       = List.filter (fun row => negb (token_of_user (account.ID authUser) row)) tokens.
Proof.
  unfold LogoutSession. cbv zeta.
  destruct (account.auth_user ctx) as [authUser|]; [|discriminate].
  destruct (db_err env _); [discriminate|].
  destruct (db_err env _); [discriminate|].
  destruct (Z.ltb_spec
              (Z.of_nat (length (List.filter (token_deleted env token (account.ID authUser))
                                   tokens))) 1) as [Hlt | Hge]; [discriminate|].
  destruct (db_err env _); [discriminate|].
  cbn [fst snd]. intros H. injection H as <-.
  exists authUser. split; [reflexivity|].
  split; [|split; [reflexivity|split; [reflexivity|split]]].
  - destruct (List.filter (token_deleted env token (account.ID authUser)) tokens)
      as [|row rest] eqn:Hf; [cbn in Hge; lia|].
    exists row. apply (filter_In (token_deleted env token (account.ID authUser))).
    rewrite Hf. left. reflexivity.
  - intros id Hid. apply in_map_iff in Hid as (row & <- & Hrow).
    apply filter_In in Hrow as [Hrow Huser].
    apply filter_In in Hrow as [_ Hkept].
    unfold token_deleted, token_of_user in *. rewrite Huser, andb_true_r in Hkept.
    now apply negb_true_iff in Hkept.
  - apply filter_after_delete. intros row Hrow.
    unfold token_deleted, token_of_user in *.
    apply andb_true_iff in Hrow as [_ ->]. reflexivity.
Qed.

Lemma LogoutSession_success_witness :
  fst (LogoutSession demo_env ada "t-ada-1" some_tokens empty_world) = Return ["t-ada-2"]
  /\ map account.TokenID (fst (snd (LogoutSession demo_env ada "t-ada-1" some_tokens
                                      empty_world)))
     = ["t-bob-1"; "t-ada-2"].
Proof.
  assert (H : fst (LogoutSession demo_env ada "t-ada-1" some_tokens empty_world)
              = Return ["t-ada-2"]) by reflexivity.
  split; [exact H|].
  destruct (LogoutSession_success demo_env ada "t-ada-1" some_tokens empty_world _ H)
    as (authUser & Hauth & _ & Htable & _).
  injection Hauth as <-. rewrite Htable. reflexivity.
Defined.

(** X23.  When the caller is authenticated, the store answers, and no row
    of the caller has the given token id, LogoutSession returns
    [Bad Request] and the table is as it was. *)
Theorem LogoutSession_unknown_token (env : Env) (ctx : account.Context) (token : string)
  (tokens : list account.Token) (w : World) (authUser : account.User) :
  account.auth_user ctx = Some authUser ->
  db_err env (clock w) = None ->
  db_err env (1 + clock w) = None ->
  (forall row, List.In row tokens ->
               token_deleted env token (account.ID authUser) row = false) ->
  fst (LogoutSession env ctx token tokens w) = Error errBadRequest
  /\ fst (snd (LogoutSession env ctx token tokens w)) = tokens.
Proof.
  intros Hauth Hdb0 Hdb1 Hnone.
  unfold LogoutSession. cbv zeta. rewrite Hauth.
  cbn [logf tick snd clock]. rewrite Hdb0. cbn [Nat.add] in Hdb1. rewrite Hdb1.
  rewrite (proj2 (filter_nil_iff _ _) Hnone). cbn [length Z.of_nat Z.ltb Z.compare].
  cbn [fst snd]. split; [reflexivity|]. apply filter_negb_none. exact Hnone.
Qed.

Lemma LogoutSession_unknown_token_witness :
  fst (LogoutSession demo_env ada "t-bob-1" some_tokens empty_world) = Error errBadRequest
  /\ fst (snd (LogoutSession demo_env ada "t-bob-1" some_tokens empty_world)) = some_tokens.
Proof.
  apply (LogoutSession_unknown_token demo_env ada "t-bob-1" some_tokens empty_world
           {| account.ID := 1; account.Identifier := "ada" |} eq_refl eq_refl eq_refl).
  intros row [<- | [<- | [<- | []]]]; reflexivity.
Defined.

(** X24.  LogoutSession is not atomic: when the DELETE has removed a row
    and the SELECT that follows fails, the call returns
    [Internal Server Error] and the token is gone all the same. *)
Theorem LogoutSession_select_failure (env : Env) (ctx : account.Context) (token : string)
  (tokens : list account.Token) (w : World) (authUser : account.User)
  (row : account.Token) (e : error) :
  account.auth_user ctx = Some authUser ->
  db_err env (clock w) = None ->
  db_err env (1 + clock w) = None ->
  db_err env (2 + clock w) = Some e ->
  List.In row tokens ->
  token_deleted env token (account.ID authUser) row = true ->
  fst (LogoutSession env ctx token tokens w) = Error errInternalServer
  /\ fst (snd (LogoutSession env ctx token tokens w))
     = List.filter (fun row => negb (token_deleted env token (account.ID authUser) row))
         tokens
  /\ ~ List.In row (fst (snd (LogoutSession env ctx token tokens w))).
Proof.
  intros Hauth Hdb0 Hdb1 Hdb2 Hin Hrow. cbn [Nat.add] in *.
  unfold LogoutSession. cbv zeta. rewrite Hauth.
  cbn [logf tick snd clock]. rewrite Hdb0, Hdb1.
  destruct (Z.ltb_spec
              (Z.of_nat (length (List.filter (token_deleted env token (account.ID authUser))
                                   tokens))) 1) as [Hlt | Hge].
  { exfalso.
    assert (Hnil : List.filter (token_deleted env token (account.ID authUser)) tokens = []).
    { destruct (List.filter _ tokens); [reflexivity | cbn in Hlt; lia]. }
    rewrite filter_nil_iff in Hnil. rewrite (Hnil row Hin) in Hrow. discriminate. }
  rewrite Hdb2. cbn [fst snd]. split; [reflexivity|]. split; [reflexivity|].
  intros Hkept. apply filter_In in Hkept as [_ Hkept]. rewrite Hrow in Hkept. discriminate.
Qed.

Lemma LogoutSession_select_failure_witness :
  fst (LogoutSession select_fails_env ada "t-ada-1" some_tokens empty_world)
  = Error errInternalServer
  /\ map account.TokenID (fst (snd (LogoutSession select_fails_env ada "t-ada-1" some_tokens
                                      empty_world)))
     = ["t-bob-1"; "t-ada-2"].
Proof.
  destruct (LogoutSession_select_failure select_fails_env ada "t-ada-1" some_tokens
              empty_world {| account.ID := 1; account.Identifier := "ada" |}
              {| account.TokenID := "t-ada-1"; account.UserID := 1 |}
              (errorsNew "pq: connection reset")
              eq_refl eq_refl eq_refl eq_refl (or_introl eq_refl) eq_refl)
    as (Hres & Htable & _).
  split; [exact Hres|]. rewrite Htable. reflexivity.
Defined.
